(** * TVL chart aggregation (frontend2, [get-tvl-chart-data.ts])

    A shallow embedding of [getChartData], of the latest-total step of
    [getCachedTvlChartData] and of [getMockTvlChartData], with the
    properties the specification states about them.

    Modelling conventions.
    - A JavaScript object whose property keys are timestamps
      ([Record<string, ValueRecord[]>], [Dictionary<ValueRecord[]>]) is the
      list of its own properties in creation order.  Keys are the canonical
      decimal strings of integers, so a key is kept as the integer it
      denotes: [String(t)] and [+key] are the identity on this domain.
      [Object.entries] follows the language's own-property order: array
      index keys (0 .. 2^32 - 2) ascending, then the rest in creation order.
    - The outer dictionary (project id to per-timestamp dictionary) is the
      list of its properties in the order [Object.values] yields them.
    - A [bigint] is a [Z]; a JavaScript [number] is an exact rational [Q]:
      rounding, NaN and the infinities are outside the model.
    - [assert] throws; thrown errors are the [Throw] results of an error
      monad, so a failing call carries no partial output. *)

From Stdlib Require Import ZArith QArith Lia.
From stdpp Require Import base option list sorting gmap strings.

Set Warnings "-clear-no-such-hyp".
Close Scope Q_scope.
Local Open Scope Z_scope.

(** ** JavaScript objects keyed by timestamps *)

Abbreviation JsObject V := (list (Z * V)).

(** An array index is a canonical numeric key below 2^32 - 1. *)
Definition isArrayIndex (k : Z) : bool := (0 <=? k) && (k <? 2 ^ 32 - 1).

Section JsObject.
Context {V : Type}.

(** [o[k]]: the value of own property [k], [None] for [undefined]. *)
Fixpoint obj_get (o : JsObject V) (k : Z) : option V :=
  match o with
  | [] => None
  | (k', v) :: o' => if decide (k' = k) then Some v else obj_get o' k
  end.

(** [o[k] = v]: an existing property keeps its place, a new one is
    created last. *)
Fixpoint obj_set (o : JsObject V) (k : Z) (v : V) : JsObject V :=
  match o with
  | [] => [(k, v)]
  | (k', v') :: o' =>
      if decide (k' = k) then (k, v) :: o' else (k', v') :: obj_set o' k v
  end.

Definition key_le : relation (Z * V) := λ a b, a.1 ≤ b.1.

#[export] Instance key_le_dec a b : Decision (key_le a b).
Proof. unfold key_le. apply _. Defined.

(** [Object.entries(o)]. *)
Definition Object_entries (o : JsObject V) : list (Z * V) :=
  merge_sort key_le (filter (λ kv, isArrayIndex kv.1) o)
    ++ filter (λ kv, ¬ isArrayIndex kv.1) o.

Definition Object_keys (o : JsObject V) : list Z := (Object_entries o).*1.
End JsObject.

(** The outer dictionary, keyed by project id. *)
Abbreviation Dictionary V := (list (string * V)).

Definition Object_values {V : Type} (d : Dictionary V) : list V := d.*2.

(** ** Errors *)

Inductive Error : Type :=
| NoEthPriceFor (timestamp : Z)   (* 'No ETH price for ' + timestamp *)
| NoLatestValue.                  (* 'No latest value' *)

Inductive Result (A : Type) : Type :=
| Ok (a : A)
| Throw (e : Error).
Arguments Ok {A} a.
Arguments Throw {A} e.

#[export] Instance Result_ret : MRet Result := @Ok.
#[export] Instance Result_bind : MBind Result := λ A B f m,
  match m with Ok a => f a | Throw e => Throw e end.

(** [assert(x, message)] on a value that may be [undefined]: returns the
    narrowed value when [x] is truthy, throws otherwise. *)
Definition assert {A : Type} (truthy : A → bool) (x : option A) (message : Error)
    : Result A :=
  match x with
  | Some a => if truthy a then Ok a else Throw message
  | None => Throw message
  end.

(** Truthiness of a number: everything but zero. *)
Definition number_truthy (x : Q) : bool := negb (Qeq_bool x 0).

(** Truthiness of an array (a tuple): always. *)
Definition array_truthy {A : Type} (_ : A) : bool := true.

(** [xs.map(f)] where [f] may throw: the first throw aborts the call. *)
Fixpoint array_map {A B : Type} (f : A → Result B) (xs : list A) : Result (list B) :=
  match xs with
  | [] => Ok []
  | x :: xs' => y ← f x; ys ← array_map f xs'; Ok (y :: ys)
  end.

(** ** Value records and their per-source sums *)

(** Modelled from the spec: the source categories that have a total. *)
Inductive Source : Type := src_native | src_canonical | src_external.

#[export] Instance Source_eq_dec : EqDecision Source.
Proof. solve_decision. Defined.

(** Modelled from the spec: the [ValueRecord] type of [@l2beat/database] is
    not part of the sources.  A record carries a timestamp, a source
    category, a fixed-point integer magnitude, and whether it belongs to the
    designated (associated-token) subset. *)
Record ValueRecord : Type := {
  timestamp : Z;
  source : Source;
  value : Z;
  associated : bool;
}.

(** The options object and the result of [sumValuesPerSource], as
    [getChartData] builds and reads them. *)
Record SumOptions : Type := {
  forTotal : bool;
  excludeAssociatedTokens : bool;
}.

Record Summed : Type := {
  native : Z;
  canonical : Z;
  external : Z;
}.

(** Modelled from the spec: part of [sumValuesPerSource].  Is the record
    counted into the total of category [s]?  The exclusion of associated
    tokens applies to the native and canonical totals. *)
Definition counted (options : SumOptions) (s : Source) (curr : ValueRecord) : bool :=
  bool_decide (source curr = s)
  && negb (excludeAssociatedTokens options && associated curr
           && negb (bool_decide (s = src_external))).

(** Modelled from the spec: [sumValuesPerSource] ([./sum-values-per-source])
    is not part of the sources.  It returns the summed native, canonical
    and external magnitudes of the records, leaving the associated tokens
    out of the native and canonical totals when [excludeAssociatedTokens]
    is set.  The spec gives [forTotal] no effect of its own. *)
Definition sumValuesPerSource (values : list ValueRecord) (options : SumOptions)
    : Summed :=
  fold_left
    (λ acc curr,
       let add s := if counted options s curr then value curr else 0 in
       {| native := native acc + add src_native;
          canonical := canonical acc + add src_canonical;
          external := external acc + add src_external |})
    values
    {| native := 0; canonical := 0; external := 0 |}.

(** [Number(x)] of a bigint. *)
Definition Number (x : Z) : Q := inject_Z x.

(** ** getChartData *)

Abbreviation ChartPoint := (Z * Q * Q * Q * Q)%type.

Definition cp_timestamp (p : ChartPoint) : Z := p.1.1.1.1.
Definition cp_native (p : ChartPoint) : Q := p.1.1.1.2.
Definition cp_canonical (p : ChartPoint) : Q := p.1.1.2.
Definition cp_external (p : ChartPoint) : Q := p.1.2.
Definition cp_ethPrice (p : ChartPoint) : Q := p.2.

(** Lines 89-96: the per-timestamp merge of all projects' records. *)
Definition mergeEntry (timestampValues : JsObject (list ValueRecord))
    (entry : Z * list ValueRecord) : JsObject (list ValueRecord) :=
  let '(timestamp, values) := entry in
  let map := default [] (obj_get timestampValues timestamp) in
  obj_set timestampValues timestamp (map ++ values).

Definition timestampValues (values : Dictionary (JsObject (list ValueRecord)))
    : JsObject (list ValueRecord) :=
  fold_left
    (λ timestampValues projectValues,
       fold_left mergeEntry (Object_entries projectValues) timestampValues)
    (Object_values values) [].

(** Lines 98-111: the callback of the final [map]. *)
Definition chartPoint (ethPrices : gmap Z Q) (excludeAssociatedTokens : bool)
    (entry : Z * list ValueRecord) : Result ChartPoint :=
  let '(timestamp, values) := entry in
  let summed :=
    sumValuesPerSource values
      {| forTotal := true; excludeAssociatedTokens := excludeAssociatedTokens |} in
  ethPrice ← assert number_truthy (ethPrices !! timestamp) (NoEthPriceFor timestamp);
  let native := Number (native summed) in
  let canonical := Number (canonical summed) in
  let external := Number (external summed) in
  Ok (timestamp, native, canonical, external, (ethPrice * 100)%Q).

Definition getChartData (values : Dictionary (JsObject (list ValueRecord)))
    (ethPrices : gmap Z Q) (excludeAssociatedTokens : bool)
    : Result (list ChartPoint) :=
  array_map (chartPoint ethPrices excludeAssociatedTokens)
    (Object_entries (timestampValues values)).

(** ** The latest total and getCachedTvlChartData *)

Record TvlTotal : Type := {
  usd : Q;
  eth : Q;
}.

Record TvlChartData : Type := {
  total : TvlTotal;
  chart : list ChartPoint;
}.

(** Lines 66-76 of [getCachedTvlChartData]: the summary computed from the
    last point of the last week's chart (the spec's [computeTotal]). *)
Definition computeTotal (lastWeekChart : list ChartPoint) : Result TvlTotal :=
  let latestValue := last lastWeekChart in
  latestValue ← assert array_truthy latestValue NoLatestValue;
  let total :=
    (cp_native latestValue + cp_canonical latestValue + cp_external latestValue)%Q in
  let ethPrice := cp_ethPrice latestValue in
  Ok {| usd := (total / 100)%Q; eth := (total / ethPrice)%Q |}.

(** The members of [TvlChartRange] are declared in [./range], which is not
    part of the sources; this file names only ['7d']. *)
Inductive TvlChartRange : Type :=
| range_7d
| range_other (name : string).

#[export] Instance TvlChartRange_eq_dec : EqDecision TvlChartRange.
Proof. solve_decision. Defined.

(** The body of [getCachedTvlChartData].  The awaited collaborators are
    taken by their results: [ethPrices] is what [getEthPrices()] resolves
    to, and [getTvlValuesForProjects range] what the fetch for the filtered
    projects and that range resolves to.  The cache wrapper is not
    modelled. *)
Definition getCachedTvlChartData (ethPrices : gmap Z Q)
    (getTvlValuesForProjects : TvlChartRange → Dictionary (JsObject (list ValueRecord)))
    (range : TvlChartRange) (excludeAssociatedTokens : option bool)
    : Result TvlChartData :=
  let values := getTvlValuesForProjects range in
  let lastWeekValues :=
    if decide (range = range_7d) then values else getTvlValuesForProjects range_7d in
  lastWeekChart ← getChartData lastWeekValues ethPrices (default false excludeAssociatedTokens);
  total ← computeTotal lastWeekChart;
  chart ← getChartData values ethPrices (default false excludeAssociatedTokens);
  Ok {| total := total; chart := chart |}.

(** ** getMockTvlChartData *)

(** The resolutions this file tells apart: ['hourly'] and the rest. *)
Inductive Resolution : Type := hourly | daily.

#[export] Instance Resolution_eq_dec : EqDecision Resolution.
Proof. solve_decision. Defined.

(** [days] is [None] for [Infinity]. *)
Record RangeConfig : Type := {
  days : option Z;
  resolution : Resolution;
}.

Definition HOUR : Z := 3600.
Definition DAY : Z := 86400.

(** Modelled from the spec: the [UnixTime] class of [@l2beat/shared-pure] is
    not part of the sources.  A [UnixTime] is its number of seconds;
    [toStartOf] rounds down to the unit, [add] moves by whole days. *)
Definition toStartOf (t unit : Z) : Z := t - t mod unit.

(** Modelled from the spec: [t.add(n, 'days')] of the same class. *)
Definition add_days (t n : Z) : Z := t + n * DAY.

(** The distance between two buckets of a resolution. *)
Definition step_of (resolution : Resolution) : Z :=
  match resolution with hourly => HOUR | daily => DAY end.

(** Modelled from the spec: [generateTimestamps] is not part of the
    sources.  It produces evenly spaced timestamps over the requested
    range, one per bucket of the resolution, both boundaries included. *)
Definition generateTimestamps (from to : Z) (resolution : Resolution) : list Z :=
  let step := step_of resolution in
  if to <? from then []
  else (λ i, from + i * step) <$> seqZ 0 ((to - from) / step + 1).

(** [getRangeConfig] ([./range]) and the clock behind
    [getTvlTargetTimestamp] are parameters. *)
Definition getMockTvlChartData (getRangeConfig : TvlChartRange → RangeConfig)
    (getTvlTargetTimestamp : Z) (range : TvlChartRange) : TvlChartData :=
  let '{| days := days; resolution := resolution |} := getRangeConfig range in
  let target :=
    toStartOf getTvlTargetTimestamp
      (if decide (resolution = hourly) then HOUR else DAY) in
  let from :=
    match days with
    | Some days => add_days target (- days)
    | None => 1573776000
    end in
  let timestamps := generateTimestamps from target resolution in
  {| total := {| usd := 60%Q; eth := 5%Q |};
     chart := (λ timestamp, (timestamp, 3000%Q, 2000%Q, 1000%Q, 1200%Q)) <$> timestamps |}.

(** [getTvlChartData]: the mock when [env.MOCK] is set, the cached
    computation otherwise. *)
Definition getTvlChartData (MOCK : bool)
    (getRangeConfig : TvlChartRange → RangeConfig) (getTvlTargetTimestamp : Z)
    (ethPrices : gmap Z Q)
    (getTvlValuesForProjects : TvlChartRange → Dictionary (JsObject (list ValueRecord)))
    (range : TvlChartRange) (excludeAssociatedTokens : option bool)
    : Result TvlChartData :=
  if MOCK then Ok (getMockTvlChartData getRangeConfig getTvlTargetTimestamp range)
  else getCachedTvlChartData ethPrices getTvlValuesForProjects range
         excludeAssociatedTokens.

(** ** Vocabulary of the statements *)

(** Every entry the merge loops visit, in the order they visit them. *)
Definition visitedEntries (values : Dictionary (JsObject (list ValueRecord)))
    : list (Z * list ValueRecord) :=
  Object_values values ≫= Object_entries.

(** The timestamps of all projects, with repetitions. *)
Definition allTimestamps (values : Dictionary (JsObject (list ValueRecord)))
    : list Z :=
  Object_values values ≫= (λ projectValues, projectValues.*1).

(** The distinct timestamps appearing across all projects. *)
Definition distinctTimestamps (values : Dictionary (JsObject (list ValueRecord)))
    : list Z :=
  remove_dups (allTimestamps values).

(** The records a list of entries holds for timestamp [t], in order. *)
Definition recordsAt (t : Z) (entries : list (Z * list ValueRecord))
    : list ValueRecord :=
  entries ≫= (λ entry, if decide (entry.1 = t) then entry.2 else []).

(** The assertion on the price of [t] passes. *)
Definition priceOk (ethPrices : gmap Z Q) (t : Z) : bool :=
  match ethPrices !! t with
  | Some ethPrice => number_truthy ethPrice
  | None => false
  end.

(** Every record any project holds for timestamp [t]. *)
Definition allRecordsAt (t : Z) (values : Dictionary (JsObject (list ValueRecord)))
    : list ValueRecord :=
  recordsAt t (Object_values values ≫= (λ projectValues, projectValues)).

(** Every record of every project. *)
Definition allRecords (values : Dictionary (JsObject (list ValueRecord)))
    : list ValueRecord :=
  Object_values values ≫= (λ projectValues, projectValues ≫= (λ entry, entry.2)).

(** The magnitudes counted into the total of category [s], added up. *)
Definition sumOf (options : SumOptions) (s : Source) (values : list ValueRecord) : Z :=
  foldr (λ curr acc, (if counted options s curr then value curr else 0) + acc) 0 values.

(** The options [getChartData] passes to [sumValuesPerSource]. *)
Definition chartOptions (excludeAssociatedTokens : bool) : SumOptions :=
  {| forTotal := true; excludeAssociatedTokens := excludeAssociatedTokens |}.

(** The chart point [getChartData] emits for an entry of the merged map
    whose price is [ethPrice]. *)
Definition pointOf (excludeAssociatedTokens : bool) (ethPrice : Q)
    (entry : Z * list ValueRecord) : ChartPoint :=
  let summed :=
    sumValuesPerSource entry.2
      {| forTotal := true; excludeAssociatedTokens := excludeAssociatedTokens |} in
  (entry.1, Number (native summed), Number (canonical summed),
   Number (external summed), (ethPrice * 100)%Q).

(** Strictly ascending keys. *)
Definition key_lt {V : Type} : relation (Z * V) := λ a b, a.1 < b.1.

(** The invariant of the spec's Price Map: every reference price is
    positive. *)
Definition PriceMap_positive (ethPrices : gmap Z Q) : Prop :=
  ∀ t ethPrice, ethPrices !! t = Some ethPrice → (0 < ethPrice)%Q.

(** ** Sample inputs *)

Definition record (t : Z) (s : Source) (v : Z) (a : bool) : ValueRecord :=
  {| timestamp := t; source := s; value := v; associated := a |}.

(** The input of the spec's example: one project, one native record. *)
Definition spec_values : Dictionary (JsObject (list ValueRecord)) :=
  [("P1"%string, [(100, [record 100 src_native 500 false])])].

Definition spec_ethPrices : gmap Z Q := {[ 100 := 2000%Q ]}.

(** Two projects sharing a timestamp; the first project's properties were
    created out of chronological order. *)
Definition sample_values : Dictionary (JsObject (list ValueRecord)) :=
  [("arbitrum"%string,
    [(200, [record 200 src_native 700 true; record 200 src_canonical 300 false]);
     (100, [record 100 src_canonical 500 true])]);
   ("optimism"%string,
    [(100, [record 100 src_external 50 false]);
     (300, [record 300 src_native 20 false])])].

Definition sample_ethPrices : gmap Z Q :=
  <[ 100 := 2000%Q ]> (<[ 200 := 2100%Q ]> {[ 300 := 2200%Q ]}).

(** Two projects whose timestamps reach the merged map latest first. *)
Definition unordered_values : Dictionary (JsObject (list ValueRecord)) :=
  [("arbitrum"%string, [(200, [record 200 src_native 700 false])]);
   ("optimism"%string, [(100, [record 100 src_native 20 false])])].

(** The same prices with the entry of 200 missing, and with it zero. *)
Definition sample_ethPrices_missing : gmap Z Q :=
  <[ 100 := 2000%Q ]> {[ 300 := 2200%Q ]}.

Definition sample_ethPrices_zero : gmap Z Q :=
  <[ 100 := 2000%Q ]> (<[ 200 := 0%Q ]> {[ 300 := 2200%Q ]}).

(** * Properties *)

(** ** Objects *)

Section JsObjectFacts.
Context {V : Type}.
Implicit Types (o : JsObject V) (k : Z) (v : V).

Lemma elem_of_keys o k v : (k, v) ∈ o → k ∈ o.*1.
Proof. intros Hin. by apply (list_elem_of_fmap_2' fst _ (k, v)). Qed.

Lemma obj_get_None o k : obj_get o k = None ↔ k ∉ o.*1.
Proof.
  induction o as [|[k' v'] o IH]; simpl.
  - split; [intros _; apply not_elem_of_nil | done].
  - rewrite not_elem_of_cons. destruct (decide (k' = k)) as [->|Hne].
    + split; [done | intros [? _]; done].
    + rewrite IH. split; [intros ?; split; [congruence | done] | by intros [_ ?]].
Qed.

Lemma obj_get_Some_elem o k v : obj_get o k = Some v → (k, v) ∈ o.
Proof.
  induction o as [|[k' v'] o IH]; simpl; [done|].
  case_decide; subst.
  - intros [= ->]. left.
  - intros. right. auto.
Qed.

Lemma obj_get_is_Some o k : is_Some (obj_get o k) ↔ k ∈ o.*1.
Proof.
  rewrite <- not_eq_None_Some, obj_get_None.
  split; [apply dec_stable | auto].
Qed.

Lemma obj_get_elem o k v : NoDup o.*1 → (k, v) ∈ o → obj_get o k = Some v.
Proof.
  induction o as [|[k' v'] o IH]; simpl; [by rewrite elem_of_nil|].
  rewrite NoDup_cons, elem_of_cons. intros [Hk' Hnd] [[= -> ->]|Hin].
  - by rewrite decide_True.
  - rewrite decide_False; [auto|].
    intros ->. apply Hk'. apply list_elem_of_fmap. by exists (k, v).
Qed.

Lemma obj_get_set o k v k' :
  obj_get (obj_set o k v) k' = if decide (k = k') then Some v else obj_get o k'.
Proof.
  induction o as [|[k0 v0] o IH]; simpl.
  - done.
  - destruct (decide (k0 = k)) as [->|Hne]; simpl.
    + by destruct (decide (k = k')).
    + rewrite IH. destruct (decide (k = k')) as [->|]; [|done].
      by rewrite decide_False.
Qed.

Lemma obj_set_keys o k v :
  (obj_set o k v).*1 = if decide (k ∈ o.*1) then o.*1 else o.*1 ++ [k].
Proof.
  induction o as [|[k0 v0] o IH]; csimpl.
  - done.
  - destruct (decide (k0 = k)) as [->|Hne]; csimpl.
    + rewrite decide_True; [done | left].
    + rewrite IH. destruct (decide (k ∈ o.*1)) as [Hin|Hnin].
      * rewrite decide_True; [done | by right].
      * rewrite decide_False; [done|].
        rewrite not_elem_of_cons. split; [congruence | done].
Qed.

Lemma obj_set_NoDup o k v : NoDup o.*1 → NoDup (obj_set o k v).*1.
Proof.
  intros Hnd. rewrite obj_set_keys. case_decide; [done|].
  apply NoDup_app. split_and!; [done | | apply NoDup_singleton].
  intros x Hx [->|[]%elem_of_nil]%elem_of_cons. done.
Qed.

Lemma elem_of_obj_set_keys o k v k' :
  k' ∈ (obj_set o k v).*1 ↔ k' = k ∨ k' ∈ o.*1.
Proof.
  rewrite obj_set_keys. case_decide.
  - naive_solver.
  - rewrite elem_of_app, list_elem_of_singleton. naive_solver.
Qed.

#[export] Instance key_le_trans : Transitive (@key_le V).
Proof. intros a b c. unfold key_le. lia. Qed.

#[export] Instance key_le_total : Total (@key_le V).
Proof. intros a b. unfold key_le. lia. Qed.

Lemma Object_entries_Permutation o : Object_entries o ≡ₚ o.
Proof.
  unfold Object_entries. rewrite merge_sort_Permutation.
  induction o as [|kv o IH]; [done|].
  destruct (decide (isArrayIndex kv.1)) as [Hidx|Hidx].
  - rewrite filter_cons_True, filter_cons_False by auto.
    simpl. by rewrite IH.
  - rewrite filter_cons_False, filter_cons_True by auto.
    rewrite <- Permutation_middle. by rewrite IH.
Qed.

Lemma Object_keys_Permutation o : Object_keys o ≡ₚ o.*1.
Proof. unfold Object_keys. by rewrite Object_entries_Permutation. Qed.

Lemma elem_of_Object_entries o kv : kv ∈ Object_entries o ↔ kv ∈ o.
Proof. by rewrite Object_entries_Permutation. Qed.

Lemma Object_entries_nil : Object_entries (@nil (Z * V)) = [].
Proof. reflexivity. Qed.

End JsObjectFacts.

(** ** The error monad and [map] *)

Section ArrayMap.
Context {A B : Type} (f : A → Result B).

Lemma array_map_Ok xs ys :
  array_map f xs = Ok ys ↔ Forall2 (λ x y, f x = Ok y) xs ys.
Proof.
  revert ys. induction xs as [|x xs IH]; intros ys; simpl.
  - split; [intros [= <-]; constructor | by inversion 1].
  - split.
    + destruct (f x) as [y|e] eqn:Hx; simpl; [|done].
      destruct (array_map f xs) as [ys'|e]; simpl; [|done].
      intros [= <-]. constructor; [done | by apply IH].
    + inversion 1 as [|? y ? ys' Hx Hxs]; subst.
      apply IH in Hxs. by rewrite Hx, Hxs.
Qed.

Lemma array_map_Throw xs e :
  array_map f xs = Throw e → ∃ x, x ∈ xs ∧ f x = Throw e.
Proof.
  induction xs as [|x xs IH]; simpl; [done|].
  destruct (f x) as [y|e'] eqn:Hx; simpl.
  - destruct (array_map f xs) as [ys'|e']; simpl; [done|].
    intros [= ->]. destruct IH as (x' & ? & ?); [done|].
    exists x'. split; [by right | done].
  - intros [= ->]. exists x. split; [left | done].
Qed.

Lemma array_map_total xs :
  (∀ x, x ∈ xs → ∃ y, f x = Ok y) → ∃ ys, array_map f xs = Ok ys.
Proof.
  induction xs as [|x xs IH]; intros Hall; simpl; [by eexists|].
  destruct (Hall x) as [y ->]; [left|].
  destruct IH as [ys ->]; [intros; apply Hall; by right|].
  by eexists.
Qed.

Lemma array_map_Ok_l xs ys x :
  array_map f xs = Ok ys → x ∈ xs → ∃ y, y ∈ ys ∧ f x = Ok y.
Proof.
  rewrite array_map_Ok. induction 1 as [|x' y' xs ys Hy _ IH].
  - by rewrite elem_of_nil.
  - rewrite elem_of_cons. intros [->|Hin].
    + exists y'. split; [left | done].
    + destruct (IH Hin) as (y & ? & ?). exists y. split; [by right | done].
Qed.

Lemma array_map_Ok_r xs ys y :
  array_map f xs = Ok ys → y ∈ ys → ∃ x, x ∈ xs ∧ f x = Ok y.
Proof.
  rewrite array_map_Ok. induction 1 as [|x' y' xs ys Hy _ IH].
  - by rewrite elem_of_nil.
  - rewrite elem_of_cons. intros [->|Hin].
    + exists x'. split; [left | done].
    + destruct (IH Hin) as (x & ? & ?). exists x. split; [by right | done].
Qed.

Lemma array_map_length xs ys : array_map f xs = Ok ys → length ys = length xs.
Proof. rewrite array_map_Ok. intros H. symmetry. by eapply Forall2_length. Qed.

End ArrayMap.

(** ** The merge *)

Lemma timestampValues_visited values :
  timestampValues values = fold_left mergeEntry (visitedEntries values) [].
Proof.
  unfold timestampValues, visitedEntries.
  generalize (@nil (Z * list ValueRecord)).
  induction (Object_values values) as [|pv pvs IH]; intros acc; csimpl; [done|].
  by rewrite fold_left_app, IH.
Qed.

Lemma recordsAt_cons t k vs es :
  recordsAt t ((k, vs) :: es) =
    (if decide (k = t) then vs else []) ++ recordsAt t es.
Proof. reflexivity. Qed.

Lemma recordsAt_app t es1 es2 :
  recordsAt t (es1 ++ es2) = recordsAt t es1 ++ recordsAt t es2.
Proof. unfold recordsAt. apply bind_app. Qed.

Lemma recordsAt_not_elem t es : t ∉ es.*1 → recordsAt t es = [].
Proof.
  induction es as [|[k vs] es IH]; [done|].
  rewrite fmap_cons, not_elem_of_cons, recordsAt_cons. intros [Hne Hnin].
  rewrite decide_False by done. auto.
Qed.

Lemma merge_get es acc t :
  obj_get (fold_left mergeEntry es acc) t =
    if decide (t ∈ es.*1)
    then Some (default [] (obj_get acc t) ++ recordsAt t es)
    else obj_get acc t.
Proof.
  revert acc. induction es as [|[k vs] es IH]; intros acc.
  - done.
  - rewrite recordsAt_cons. csimpl. rewrite IH, obj_get_set.
    destruct (decide (k = t)) as [->|Hne].
    + rewrite (decide_True (P := t ∈ t :: es.*1)) by left. simpl.
      destruct (decide (t ∈ es.*1)) as [Hin|Hnin].
      * by rewrite (assoc_L (++)).
      * by rewrite recordsAt_not_elem, app_nil_r.
    + destruct (decide (t ∈ es.*1)) as [Hin|Hnin].
      * rewrite decide_True by (by right). done.
      * rewrite decide_False; [done|].
        rewrite not_elem_of_cons. done.
Qed.

Lemma merge_keys es acc t :
  t ∈ (fold_left mergeEntry es acc).*1 ↔ t ∈ acc.*1 ∨ t ∈ es.*1.
Proof.
  revert acc. induction es as [|[k vs] es IH]; intros acc; csimpl.
  - rewrite elem_of_nil. tauto.
  - rewrite IH, elem_of_obj_set_keys, elem_of_cons. tauto.
Qed.

Lemma merge_NoDup es acc :
  NoDup acc.*1 → NoDup (fold_left mergeEntry es acc).*1.
Proof.
  revert acc. induction es as [|[k vs] es IH]; intros acc Hnd; csimpl; [done|].
  apply IH. by apply obj_set_NoDup.
Qed.

Lemma visitedEntries_keys values :
  (visitedEntries values).*1 ≡ₚ allTimestamps values.
Proof.
  unfold visitedEntries, allTimestamps.
  induction (Object_values values) as [|pv pvs IH]; csimpl; [done|].
  by rewrite fmap_app, IH, Object_entries_Permutation.
Qed.

Lemma timestampValues_NoDup values : NoDup (timestampValues values).*1.
Proof. rewrite timestampValues_visited. apply merge_NoDup. constructor. Qed.

Lemma timestampValues_keys values t :
  t ∈ (timestampValues values).*1 ↔ t ∈ allTimestamps values.
Proof.
  rewrite timestampValues_visited, merge_keys, visitedEntries_keys.
  rewrite elem_of_nil. tauto.
Qed.

Lemma timestampValues_get values t :
  obj_get (timestampValues values) t =
    if decide (t ∈ allTimestamps values)
    then Some (recordsAt t (visitedEntries values))
    else None.
Proof.
  rewrite timestampValues_visited, merge_get. simpl.
  destruct (decide (t ∈ allTimestamps values)) as [Hin|Hnin].
  - rewrite decide_True; [done | by rewrite visitedEntries_keys].
  - rewrite decide_False; [done | by rewrite visitedEntries_keys].
Qed.

Lemma timestampValues_keys_Permutation values :
  (timestampValues values).*1 ≡ₚ distinctTimestamps values.
Proof.
  apply NoDup_Permutation.
  - apply timestampValues_NoDup.
  - apply NoDup_remove_dups.
  - intros t. unfold distinctTimestamps.
    by rewrite elem_of_remove_dups, timestampValues_keys.
Qed.

(** ** One chart point *)

Lemma chartPoint_Ok ethPrices excl entry p :
  chartPoint ethPrices excl entry = Ok p ↔
  ∃ ethPrice, ethPrices !! entry.1 = Some ethPrice
    ∧ number_truthy ethPrice = true
    ∧ p = pointOf excl ethPrice entry.
Proof.
  destruct entry as [t vs]. unfold chartPoint, pointOf, assert. simpl.
  destruct (ethPrices !! t) as [ethPrice|]; simpl.
  - destruct (number_truthy ethPrice) eqn:Htruthy; simpl.
    + split; [intros [= <-]; by exists ethPrice | intros (? & [= <-] & _ & ->); done].
    + split; [done | intros (? & [= <-] & ? & _); congruence].
  - split; [done | intros (? & ? & _); done].
Qed.

Lemma chartPoint_Throw ethPrices excl entry e :
  chartPoint ethPrices excl entry = Throw e ↔
  e = NoEthPriceFor entry.1 ∧ priceOk ethPrices entry.1 = false.
Proof.
  destruct entry as [t vs]. unfold chartPoint, priceOk, assert. simpl.
  destruct (ethPrices !! t) as [ethPrice|]; simpl.
  - destruct (number_truthy ethPrice) eqn:Htruthy; simpl.
    + split; [done | intros [_ ?]; done].
    + split; [intros [= <-]; done | intros [-> _]; done].
  - split; [intros [= <-]; done | intros [-> _]; done].
Qed.

Lemma chartPoint_priceOk ethPrices excl entry :
  priceOk ethPrices entry.1 = true → ∃ p, chartPoint ethPrices excl entry = Ok p.
Proof.
  intros Hok. destruct (chartPoint ethPrices excl entry) as [p|e] eqn:E.
  - by eexists.
  - apply chartPoint_Throw in E as [_ E]. congruence.
Qed.

Lemma chartPoint_timestamp ethPrices excl entry p :
  chartPoint ethPrices excl entry = Ok p → cp_timestamp p = entry.1.
Proof. rewrite chartPoint_Ok. by intros (? & _ & _ & ->). Qed.

(** ** The whole chart *)

Lemma getChartData_timestamps values ethPrices excl chart :
  getChartData values ethPrices excl = Ok chart →
  cp_timestamp <$> chart = Object_keys (timestampValues values).
Proof.
  unfold getChartData, Object_keys. rewrite array_map_Ok.
  induction 1 as [|entry p entries ps Hp _ IH]; csimpl; [done|].
  f_equal; [by eapply chartPoint_timestamp | done].
Qed.

Lemma getChartData_Ok values ethPrices excl :
  (∀ t, t ∈ allTimestamps values → priceOk ethPrices t = true) →
  ∃ chart, getChartData values ethPrices excl = Ok chart.
Proof.
  intros Hall. apply array_map_total. intros [t vs] Hin.
  apply chartPoint_priceOk, Hall, timestampValues_keys.
  rewrite elem_of_Object_entries in Hin. by apply (elem_of_keys _ t vs).
Qed.

Lemma getChartData_Throw values ethPrices excl e :
  getChartData values ethPrices excl = Throw e →
  ∃ t, e = NoEthPriceFor t ∧ t ∈ allTimestamps values ∧ priceOk ethPrices t = false.
Proof.
  intros ([t vs] & Hin & [-> Hprice]%chartPoint_Throw)%array_map_Throw.
  exists t. split_and!; [done | | done].
  apply timestampValues_keys. rewrite elem_of_Object_entries in Hin.
  by apply (elem_of_keys _ t vs).
Qed.

Lemma getChartData_Ok_priceOk values ethPrices excl chart t :
  getChartData values ethPrices excl = Ok chart →
  t ∈ allTimestamps values → priceOk ethPrices t = true.
Proof.
  intros Hok Hin.
  apply timestampValues_keys, list_elem_of_fmap in Hin as ([t' vs] & -> & Hin).
  rewrite <- elem_of_Object_entries in Hin.
  destruct (array_map_Ok_l _ _ _ _ Hok Hin) as (p & _ & Hp).
  apply chartPoint_Ok in Hp as (ethPrice & Hprice & Htruthy & _).
  unfold priceOk. by rewrite Hprice.
Qed.

Lemma getChartData_length values ethPrices excl chart :
  getChartData values ethPrices excl = Ok chart →
  length chart = length (distinctTimestamps values).
Proof.
  intros Hok. rewrite <- (length_fmap cp_timestamp).
  rewrite (getChartData_timestamps _ _ _ _ Hok).
  by rewrite Object_keys_Permutation, timestampValues_keys_Permutation.
Qed.

(** ** Prices *)

Lemma number_truthy_false x : number_truthy x = false ↔ (x == 0)%Q.
Proof.
  unfold number_truthy. rewrite negb_false_iff. apply Qeq_bool_iff.
Qed.

Lemma number_truthy_true x : number_truthy x = true ↔ ¬ (x == 0)%Q.
Proof.
  rewrite <- number_truthy_false. destruct (number_truthy x); naive_solver.
Qed.

Lemma priceOk_true ethPrices t :
  priceOk ethPrices t = true ↔
  ∃ ethPrice, ethPrices !! t = Some ethPrice ∧ ¬ (ethPrice == 0)%Q.
Proof.
  unfold priceOk. destruct (ethPrices !! t) as [x|].
  - rewrite number_truthy_true. naive_solver.
  - naive_solver.
Qed.

Lemma priceOk_positive ethPrices t :
  PriceMap_positive ethPrices → is_Some (ethPrices !! t) → priceOk ethPrices t = true.
Proof.
  intros Hpos [x Hx]. apply priceOk_true. exists x. split; [done|].
  intros Hzero. apply Hpos in Hx. rewrite Hzero in Hx. by apply Qlt_irrefl in Hx.
Qed.

Lemma priceOk_None ethPrices t : ethPrices !! t = None → priceOk ethPrices t = false.
Proof. unfold priceOk. by intros ->. Qed.

Lemma getChartData_fails values ethPrices excl t :
  t ∈ allTimestamps values → priceOk ethPrices t = false →
  ∃ t', getChartData values ethPrices excl = Throw (NoEthPriceFor t')
    ∧ t' ∈ allTimestamps values ∧ priceOk ethPrices t' = false.
Proof.
  intros Hin Hbad.
  destruct (getChartData values ethPrices excl) as [chart|e] eqn:E.
  - rewrite (getChartData_Ok_priceOk _ _ _ _ _ E Hin) in Hbad. done.
  - apply getChartData_Throw in E as (t' & -> & ? & ?). by exists t'.
Qed.

Lemma chartPoint_delete_zero ethPrices excl t ethPrice entry :
  ethPrices !! t = Some ethPrice → (ethPrice == 0)%Q →
  chartPoint ethPrices excl entry = chartPoint (delete t ethPrices) excl entry.
Proof.
  intros Hprice Hzero. destruct entry as [t' vs]. unfold chartPoint.
  destruct (decide (t = t')) as [<-|Hne].
  - rewrite lookup_delete_eq, Hprice. simpl.
    apply number_truthy_false in Hzero. by rewrite Hzero.
  - by rewrite lookup_delete_ne.
Qed.

Lemma array_map_ext {A B : Type} (f g : A → Result B) xs :
  (∀ x, f x = g x) → array_map f xs = array_map g xs.
Proof.
  intros Hfg. induction xs as [|x xs IH]; simpl; [done|].
  by rewrite Hfg, IH.
Qed.

(** ** The order of [Object.entries] *)

Section EntryOrder.
Context {V : Type}.
Implicit Types (o : JsObject V).

Lemma StronglySorted_filter {A : Type} (R : relation A) (P : A → Prop)
    `{!∀ x, Decision (P x)} (l : list A) :
  StronglySorted R l → StronglySorted R (filter P l).
Proof.
  induction 1 as [|x l _ IH Hx]; [constructor|].
  rewrite filter_cons. case_decide; [|done].
  constructor; [done|].
  apply Forall_forall. intros y [_ Hy]%list_elem_of_filter.
  rewrite Forall_forall in Hx. auto.
Qed.

Lemma key_lt_keys o : StronglySorted Z.lt o.*1 ↔ StronglySorted key_lt o.
Proof.
  induction o as [|kv o IH]; csimpl.
  - split; constructor.
  - rewrite !StronglySorted_cons, IH, Forall_fmap. done.
Qed.

Lemma key_lt_le o : StronglySorted key_lt o → StronglySorted (@key_le V) o.
Proof.
  induction 1 as [|kv o _ IH Hkv]; constructor; [done|].
  eapply Forall_impl; [exact Hkv|]. unfold key_lt, key_le. intros; lia.
Qed.

Lemma key_lt_inj o x y :
  StronglySorted key_lt o → x ∈ o → y ∈ o → x.1 = y.1 → x = y.
Proof.
  induction 1 as [|kv o _ IH Hkv]; [by rewrite elem_of_nil|].
  rewrite Forall_forall in Hkv. unfold key_lt in Hkv.
  rewrite !elem_of_cons. intros [->|Hx] [->|Hy] Heq; auto.
  - specialize (Hkv _ Hy). lia.
  - specialize (Hkv _ Hx). lia.
Qed.

Lemma merge_sort_sorted o :
  StronglySorted key_lt o → merge_sort key_le o = o.
Proof.
  intros Hsorted. apply (StronglySorted_unique_strong key_le).
  - intros x y Hx Hy Hxy Hyx. rewrite merge_sort_Permutation in Hx.
    apply (key_lt_inj o); [done..|]. unfold key_le in *. lia.
  - apply StronglySorted_merge_sort; apply _.
  - by apply key_lt_le.
  - apply merge_sort_Permutation.
Qed.

Lemma filter_none {A : Type} (P : A → Prop) `{!∀ x, Decision (P x)} (l : list A) :
  Forall (λ x, ¬ P x) l → filter P l = [].
Proof.
  induction 1 as [|x l Hx _ IH]; [done|]. by rewrite filter_cons_False.
Qed.

Lemma filter_all {A : Type} (P : A → Prop) `{!∀ x, Decision (P x)} (l : list A) :
  Forall P l → filter P l = l.
Proof.
  induction 1 as [|x l Hx _ IH]; [done|]. by rewrite filter_cons_True, IH.
Qed.

Lemma filter_index_split o :
  (∀ k, k ∈ o.*1 → 0 ≤ k) → StronglySorted key_lt o →
  filter (λ kv, isArrayIndex kv.1) o ++ filter (λ kv, ¬ isArrayIndex kv.1) o = o.
Proof.
  intros Hnonneg. induction 1 as [|kv o Hsorted IH Hkv]; [done|].
  assert (∀ k, k ∈ o.*1 → 0 ≤ k) as Hnonneg'.
  { intros k Hk. apply Hnonneg. rewrite fmap_cons. by right. }
  destruct (decide (isArrayIndex kv.1)) as [Hidx|Hidx].
  - rewrite filter_cons_True, filter_cons_False by auto.
    simpl. f_equal. auto.
  - assert (Forall (λ kv', ¬ isArrayIndex kv'.1) (kv :: o)) as Hrest.
    { constructor; [done|].
      eapply Forall_impl; [exact Hkv|]. intros kv' Hlt.
      assert (0 ≤ kv.1) by (apply Hnonneg; rewrite fmap_cons; left).
      unfold key_lt in Hlt. unfold isArrayIndex in *.
      rewrite andb_True, !Is_true_true, Z.leb_le, Z.ltb_lt in *. lia. }
    by rewrite (filter_none _ _ Hrest), (filter_all _ _ Hrest).
Qed.

(** Properties created in chronological order, none before the epoch, are
    enumerated in that order. *)
Lemma Object_entries_chronological o :
  (∀ k, k ∈ o.*1 → 0 ≤ k) → StronglySorted Z.lt o.*1 → Object_entries o = o.
Proof.
  intros Hnonneg Hsorted%key_lt_keys. unfold Object_entries.
  rewrite merge_sort_sorted by by apply StronglySorted_filter.
  by apply filter_index_split.
Qed.

Lemma StronglySorted_le_lt (l : list Z) :
  StronglySorted Z.le l → NoDup l → StronglySorted Z.lt l.
Proof.
  induction 1 as [|x l _ IH Hx]; [constructor|].
  rewrite NoDup_cons. intros [Hnin Hnd]. constructor; [auto|].
  rewrite Forall_forall in *. intros y Hy.
  specialize (Hx _ Hy). assert (x ≠ y) by (by intros ->). lia.
Qed.

(** Array index keys are enumerated in ascending order, whatever their
    creation order. *)
Lemma Object_keys_index_sorted o :
  (∀ k, k ∈ o.*1 → isArrayIndex k) → NoDup o.*1 →
  StronglySorted Z.lt (Object_keys o).
Proof.
  intros Hidx Hnd. apply StronglySorted_le_lt.
  - unfold Object_keys, Object_entries.
    rewrite (filter_none (λ kv, ¬ isArrayIndex kv.1)), app_nil_r.
    + apply (StronglySorted_fmap _ key_le); [done|].
      apply StronglySorted_merge_sort; apply _.
    + apply Forall_forall. intros [k v] Hin Hnidx. apply Hnidx, Hidx.
      by apply (elem_of_keys _ k v).
  - by rewrite Object_keys_Permutation.
Qed.

End EntryOrder.

(** ** The latest total *)

Lemma computeTotal_snoc init p :
  computeTotal (init ++ [p]) =
    Ok {| usd := ((cp_native p + cp_canonical p + cp_external p) / 100)%Q;
          eth := ((cp_native p + cp_canonical p + cp_external p) / cp_ethPrice p)%Q |}.
Proof. unfold computeTotal. by rewrite last_snoc. Qed.

Lemma computeTotal_nil : computeTotal [] = Throw NoLatestValue.
Proof. reflexivity. Qed.

Lemma getChartData_not_NoLatestValue values ethPrices excl :
  getChartData values ethPrices excl ≠ Throw NoLatestValue.
Proof. by intros (t & [=] & _)%getChartData_Throw. Qed.

(** ** Sums per source *)

Lemma sumValuesPerSource_sumOf values options :
  sumValuesPerSource values options =
    {| native := sumOf options src_native values;
       canonical := sumOf options src_canonical values;
       external := sumOf options src_external values |}.
Proof.
  unfold sumValuesPerSource.
  set (step := λ acc curr, _).
  assert (∀ acc,
    fold_left step values acc =
      {| native := native acc + sumOf options src_native values;
         canonical := canonical acc + sumOf options src_canonical values;
         external := external acc + sumOf options src_external values |}) as Hgen.
  { induction values as [|curr values IH]; intros [n c e]; simpl.
    - f_equal; lia.
    - rewrite IH. simpl. f_equal; lia. }
  by rewrite Hgen.
Qed.

Lemma sumOf_Permutation options s values values' :
  values ≡ₚ values' → sumOf options s values = sumOf options s values'.
Proof. induction 1; simpl; lia. Qed.

Lemma sumValuesPerSource_Permutation values values' options :
  values ≡ₚ values' →
  sumValuesPerSource values options = sumValuesPerSource values' options.
Proof.
  intros Hperm. rewrite !sumValuesPerSource_sumOf.
  f_equal; by apply sumOf_Permutation.
Qed.

(** ** Reordering the projects *)

Lemma bind_Permutation_ext {A B : Type} (f g : A → list B) (l : list A) :
  (∀ x, f x ≡ₚ g x) → l ≫= f ≡ₚ l ≫= g.
Proof.
  intros Hfg. induction l as [|x l IH]; csimpl; [done|]. by rewrite Hfg, IH.
Qed.

#[export] Instance recordsAt_Permutation t :
  Proper ((≡ₚ) ==> (≡ₚ)) (recordsAt t).
Proof. intros es es' Hperm. unfold recordsAt. by rewrite Hperm. Qed.

Lemma visitedEntries_Permutation values :
  visitedEntries values ≡ₚ Object_values values ≫= (λ projectValues, projectValues).
Proof. apply bind_Permutation_ext. intros o. apply Object_entries_Permutation. Qed.

Lemma timestampValues_records values t :
  default [] (obj_get (timestampValues values) t) ≡ₚ allRecordsAt t values.
Proof.
  unfold allRecordsAt. rewrite <- visitedEntries_Permutation.
  rewrite timestampValues_get. case_decide as Hin; simpl; [done|].
  rewrite recordsAt_not_elem; [done|]. by rewrite visitedEntries_keys.
Qed.

Lemma allTimestamps_Permutation values values' :
  values ≡ₚ values' → allTimestamps values ≡ₚ allTimestamps values'.
Proof. intros Hperm. unfold allTimestamps, Object_values. by rewrite Hperm. Qed.

Lemma allRecordsAt_Permutation t values values' :
  values ≡ₚ values' → allRecordsAt t values ≡ₚ allRecordsAt t values'.
Proof.
  intros Hperm. unfold allRecordsAt, Object_values. by rewrite Hperm.
Qed.

Lemma timestampValues_sum_Permutation values values' t options :
  values ≡ₚ values' →
  sumValuesPerSource (default [] (obj_get (timestampValues values') t)) options
  = sumValuesPerSource (default [] (obj_get (timestampValues values) t)) options.
Proof.
  intros Hperm. apply sumValuesPerSource_Permutation.
  rewrite !timestampValues_records. symmetry. by apply allRecordsAt_Permutation.
Qed.

(** The chart point of timestamp [t], from the merged map. *)
Lemma getChartData_points values ethPrices excl chart :
  getChartData values ethPrices excl = Ok chart →
  chart =
    (λ t, pointOf excl (default 0%Q (ethPrices !! t))
            (t, default [] (obj_get (timestampValues values) t)))
      <$> Object_keys (timestampValues values).
Proof.
  unfold getChartData, Object_keys. rewrite array_map_Ok.
  pose proof (timestampValues_NoDup values) as Hnd.
  assert (∀ entry, entry ∈ Object_entries (timestampValues values) →
            obj_get (timestampValues values) entry.1 = Some entry.2) as Hget.
  { intros [t vs] Hin. rewrite elem_of_Object_entries in Hin.
    by apply obj_get_elem. }
  revert Hget. generalize (Object_entries (timestampValues values)).
  intros entries Hget Hall.
  induction Hall as [|entry p entries ps Hp _ IH]; csimpl; [done|].
  rewrite <- IH by (intros; apply Hget; by right). f_equal.
  apply chartPoint_Ok in Hp as (ethPrice & Hprice & _ & ->).
  rewrite Hprice, (Hget entry) by left. by destruct entry.
Qed.

Lemma array_map_ext_in {A B : Type} (f g : A → Result B) xs :
  (∀ x, x ∈ xs → f x = g x) → array_map f xs = array_map g xs.
Proof.
  induction xs as [|x xs IH]; intros Hfg; simpl; [done|].
  rewrite Hfg by left. rewrite IH; [done|]. intros; apply Hfg; by right.
Qed.

Lemma array_map_fmap {A B C : Type} (h : A → B) (g : B → Result C) xs :
  array_map g (h <$> xs) = array_map (g ∘ h) xs.
Proof. induction xs as [|x xs IH]; csimpl; [done|]. by rewrite IH. Qed.

Lemma getChartData_by_keys values ethPrices excl :
  getChartData values ethPrices excl =
    array_map
      (λ t, chartPoint ethPrices excl
              (t, default [] (obj_get (timestampValues values) t)))
      (Object_keys (timestampValues values)).
Proof.
  unfold getChartData, Object_keys. rewrite array_map_fmap.
  apply array_map_ext_in. intros [t vs] Hin. simpl.
  rewrite elem_of_Object_entries in Hin.
  by rewrite (obj_get_elem _ _ _ (timestampValues_NoDup values) Hin).
Qed.

Lemma chartPoint_sum ethPrices excl t vs vs' :
  sumValuesPerSource vs (chartOptions excl) = sumValuesPerSource vs' (chartOptions excl) →
  chartPoint ethPrices excl (t, vs) = chartPoint ethPrices excl (t, vs').
Proof. unfold chartPoint, chartOptions. by intros ->. Qed.

Lemma pointOf_sum excl ethPrice t vs vs' :
  sumValuesPerSource vs (chartOptions excl) = sumValuesPerSource vs' (chartOptions excl) →
  pointOf excl ethPrice (t, vs) = pointOf excl ethPrice (t, vs').
Proof. unfold pointOf, chartOptions. simpl. by intros ->. Qed.

Lemma Object_keys_timestampValues_Permutation values values' :
  values ≡ₚ values' →
  Object_keys (timestampValues values') ≡ₚ Object_keys (timestampValues values).
Proof.
  intros Hperm. rewrite !Object_keys_Permutation.
  apply NoDup_Permutation; [apply timestampValues_NoDup..|].
  intros t. by rewrite !timestampValues_keys, (allTimestamps_Permutation _ _ Hperm).
Qed.

(** ** Excluding the associated tokens *)

Lemma counted_exclude s curr :
  counted (chartOptions true) s curr = true →
  counted (chartOptions false) s curr = true.
Proof.
  unfold counted, chartOptions. simpl.
  rewrite !andb_true_iff. by intros [-> _].
Qed.

Lemma sumOf_exclude_le s values :
  (∀ r, r ∈ values → 0 ≤ value r) →
  sumOf (chartOptions true) s values ≤ sumOf (chartOptions false) s values.
Proof.
  induction values as [|curr values IH]; intros Hnonneg; simpl; [done|].
  assert (0 ≤ value curr) by (apply Hnonneg; left).
  assert (sumOf (chartOptions true) s values ≤ sumOf (chartOptions false) s values)
    by (apply IH; intros; apply Hnonneg; by right).
  pose proof (counted_exclude s curr) as Himpl.
  destruct (counted (chartOptions true) s curr),
    (counted (chartOptions false) s curr);
    first [lia | by specialize (Himpl eq_refl)].
Qed.

Lemma Number_le a b : a ≤ b → (Number a <= Number b)%Q.
Proof. unfold Number. by rewrite <- Zle_Qle. Qed.

Lemma allRecordsAt_allRecords t values r :
  r ∈ allRecordsAt t values → r ∈ allRecords values.
Proof.
  unfold allRecordsAt, allRecords, recordsAt. rewrite !list_elem_of_bind.
  intros (entry & Hr & (projectValues & Hentry & Hpv)%list_elem_of_bind).
  exists projectValues. split; [|done].
  apply list_elem_of_bind. exists entry. split; [|done].
  case_decide; [done | by apply elem_of_nil in Hr].
Qed.

(** ** The mock chart *)

Lemma toStartOf_HOUR now : ∃ k, toStartOf now HOUR = k * HOUR.
Proof.
  exists (now / HOUR). unfold toStartOf, HOUR.
  pose proof (Z.div_mod now 3600). lia.
Qed.

Lemma generateTimestamps_week target :
  generateTimestamps (add_days target (- 7)) target hourly
  = (λ i, target - 7 * DAY + i * HOUR) <$> seqZ 0 (7 * 24 + 1).
Proof.
  unfold generateTimestamps, add_days, step_of, DAY, HOUR.
  rewrite (proj2 (Z.ltb_ge _ _)) by lia.
  replace (target - (target + - 7 * 86400)) with (168 * 3600) by lia.
  rewrite Z.div_mul by done.
  apply list_fmap_ext. intros _ i _. lia.
Qed.

Lemma sample_ethPrices_positive : PriceMap_positive sample_ethPrices.
Proof.
  intros t x. unfold sample_ethPrices.
  rewrite !lookup_insert, lookup_singleton.
  repeat case_decide; intros [= <-]; done.
Qed.

(** * The claims *)

(** Closed decidable side conditions of the sample runs are settled by
    evaluating their decision procedure. *)
Ltac evaluate := apply (bool_decide_unpack _); vm_compute; exact I.
Ltac evaluate_all := apply Forall_forall; evaluate.

(** C1: for every Project-Value Map, [getChartData] returns exactly one
    chart point per distinct timestamp appearing across all projects: with
    every price available, an input with N distinct timestamps yields a
    chart of N points whose timestamps are those N timestamps, each once;
    the empty map yields the empty chart. *)
Theorem C1_one_point_per_distinct_timestamp values ethPrices excl :
  getChartData [] ethPrices excl = Ok []
  ∧ ((∀ t, t ∈ allTimestamps values → priceOk ethPrices t = true) →
     ∃ chart, getChartData values ethPrices excl = Ok chart
       ∧ length chart = length (distinctTimestamps values)
       ∧ cp_timestamp <$> chart ≡ₚ distinctTimestamps values
       ∧ NoDup (cp_timestamp <$> chart)).
Proof.
  split; [done|]. intros Hprices.
  destruct (getChartData_Ok values ethPrices excl Hprices) as [chart Hchart].
  exists chart. split; [done|].
  assert (cp_timestamp <$> chart ≡ₚ distinctTimestamps values) as Hperm.
  { rewrite (getChartData_timestamps _ _ _ _ Hchart).
    by rewrite Object_keys_Permutation, timestampValues_keys_Permutation. }
  split_and!; [by eapply getChartData_length | done |].
  rewrite Hperm. apply NoDup_remove_dups.
Qed.

Lemma C1_witness :
  ∃ chart, getChartData sample_values sample_ethPrices false = Ok chart
    ∧ length chart = 3%nat
    ∧ cp_timestamp <$> chart ≡ₚ [200; 100; 300]
    ∧ NoDup (cp_timestamp <$> chart).
Proof.
  apply (C1_one_point_per_distinct_timestamp sample_values sample_ethPrices false).
  evaluate_all.
Defined.

(** C2: if some timestamp of the Project-Value Map has no entry in the
    Price Map, [getChartData] fails with the missing-price error and returns
    no chart at all; over a Price Map (positive reference prices) that has
    an entry for every timestamp of the value map, it does not fail. *)
Theorem C2_missing_price_aborts values ethPrices excl :
  ((∃ t, t ∈ allTimestamps values ∧ ethPrices !! t = None) →
   ∃ t', getChartData values ethPrices excl = Throw (NoEthPriceFor t')
     ∧ t' ∈ allTimestamps values ∧ priceOk ethPrices t' = false)
  ∧ (PriceMap_positive ethPrices →
     (∀ t, t ∈ allTimestamps values → is_Some (ethPrices !! t)) →
     ∃ chart, getChartData values ethPrices excl = Ok chart).
Proof.
  split.
  - intros (t & Hin & Hnone).
    apply (getChartData_fails _ _ _ t); [done | by apply priceOk_None].
  - intros Hpos Hall. apply getChartData_Ok.
    intros t Hin. apply priceOk_positive; auto.
Qed.

Lemma C2_witness :
  (∃ t', getChartData sample_values sample_ethPrices_missing false
           = Throw (NoEthPriceFor t')
     ∧ t' ∈ allTimestamps sample_values
     ∧ priceOk sample_ethPrices_missing t' = false)
  ∧ (∃ chart, getChartData sample_values sample_ethPrices false = Ok chart).
Proof.
  split.
  - apply (C2_missing_price_aborts sample_values sample_ethPrices_missing false).
    exists 200. split; [|reflexivity].
    evaluate.
  - apply (C2_missing_price_aborts sample_values sample_ethPrices false).
    + apply sample_ethPrices_positive.
    + evaluate_all.
Defined.

(** C3: the latest-total step takes the last element of its chart-point
    sequence, by sequence order, and fails with the no-data error exactly
    when the sequence is empty.  On a sequence ending in [p] it returns the
    summary read off [p]: the sum of the three components of [p] over 100,
    and over the price of [p]; nothing before [p] is looked at.
    [getCachedTvlChartData] fails with the no-data error exactly when the
    last week's chart is empty. *)
Theorem C3_latest_total_needs_data lastWeekChart :
  (computeTotal lastWeekChart = Throw NoLatestValue ↔ lastWeekChart = [])
  ∧ (∀ init p, lastWeekChart = init ++ [p] →
       last lastWeekChart = Some p
       ∧ computeTotal lastWeekChart
         = Ok {| usd := ((cp_native p + cp_canonical p + cp_external p) / 100)%Q;
                 eth := ((cp_native p + cp_canonical p + cp_external p)
                         / cp_ethPrice p)%Q |}
       ∧ computeTotal lastWeekChart = computeTotal [p])
  ∧ (∀ ethPrices getTvlValuesForProjects range excl,
       getChartData
         (if decide (range = range_7d) then getTvlValuesForProjects range
          else getTvlValuesForProjects range_7d)
         ethPrices (default false excl) = Ok lastWeekChart →
       (getCachedTvlChartData ethPrices getTvlValuesForProjects range excl
          = Throw NoLatestValue ↔ lastWeekChart = [])).
Proof.
  split_and!.
  - destruct lastWeekChart as [|p chart _] using rev_ind.
    + done.
    + rewrite computeTotal_snoc. split; [done|].
      intros Heq. by destruct chart.
  - intros init p ->. rewrite last_snoc, computeTotal_snoc.
    split_and!; [done | done |]. symmetry. apply (computeTotal_snoc [] p).
  - intros ethPrices getTvlValuesForProjects range excl Hlast.
    unfold getCachedTvlChartData. rewrite Hlast. simpl.
    destruct lastWeekChart as [|p chart _] using rev_ind.
    + done.
    + rewrite computeTotal_snoc. simpl.
      split; [|intros Heq; by destruct chart].
      destruct (getChartData (getTvlValuesForProjects range) ethPrices
                  (default false excl)) as [c|e] eqn:E; simpl; [done|].
      intros [= ->]. by apply getChartData_not_NoLatestValue in E.
Qed.

Lemma C3_witness :
  computeTotal [(100, 0%Q, 500%Q, 50%Q, 200000%Q);
                (200, 700%Q, 300%Q, 0%Q, 210000%Q);
                (300, 20%Q, 0%Q, 0%Q, 220000%Q)]
  = Ok {| usd := ((20 + 0 + 0) / 100)%Q; eth := ((20 + 0 + 0) / 220000)%Q |}
  ∧ computeTotal [] = Throw NoLatestValue
  ∧ getCachedTvlChartData sample_ethPrices (λ _, []) range_7d None
    = Throw NoLatestValue.
Proof.
  destruct (C3_latest_total_needs_data
              [(100, 0%Q, 500%Q, 50%Q, 200000%Q);
               (200, 700%Q, 300%Q, 0%Q, 210000%Q);
               (300, 20%Q, 0%Q, 0%Q, 220000%Q)]) as (_ & Hlast & _).
  destruct (Hlast [(100, 0%Q, 500%Q, 50%Q, 200000%Q);
                   (200, 700%Q, 300%Q, 0%Q, 210000%Q)]
                  (300, 20%Q, 0%Q, 0%Q, 220000%Q) eq_refl) as (_ & Hvalue & _).
  destruct (C3_latest_total_needs_data []) as (Hempty & _ & Hcached).
  split; [exact Hvalue|]. split; [by apply Hempty|].
  by apply (Hcached sample_ethPrices (λ _, []) range_7d None).
Defined.

(** C4: for a chart-point sequence whose last point is
    (t, native, canonical, external, price), the latest-total summary is
    usd = (native + canonical + external) / 100 and
    eth = (native + canonical + external) / price; this is the [total] that
    [getCachedTvlChartData] returns next to the chart. *)
Theorem C4_latest_total_formula init t native canonical external price :
  computeTotal (init ++ [(t, native, canonical, external, price)])
    = Ok {| usd := ((native + canonical + external) / 100)%Q;
            eth := ((native + canonical + external) / price)%Q |}
  ∧ (∀ ethPrices getTvlValuesForProjects range excl chart,
       getChartData
         (if decide (range = range_7d) then getTvlValuesForProjects range
          else getTvlValuesForProjects range_7d)
         ethPrices (default false excl)
         = Ok (init ++ [(t, native, canonical, external, price)]) →
       getChartData (getTvlValuesForProjects range) ethPrices (default false excl)
         = Ok chart →
       getCachedTvlChartData ethPrices getTvlValuesForProjects range excl
         = Ok {| total :=
                   {| usd := ((native + canonical + external) / 100)%Q;
                      eth := ((native + canonical + external) / price)%Q |};
                 chart := chart |}).
Proof.
  split; [apply computeTotal_snoc|].
  intros ethPrices getTvlValuesForProjects range excl chart Hlast Hchart.
  unfold getCachedTvlChartData. rewrite Hlast. simpl.
  rewrite computeTotal_snoc. simpl. by rewrite Hchart.
Qed.

Lemma C4_witness :
  getCachedTvlChartData sample_ethPrices (λ _, sample_values) range_7d None
  = Ok {| total := {| usd := ((20 + 0 + 0) / 100)%Q;
                      eth := ((20 + 0 + 0) / 220000)%Q |};
          chart := [(100, 0%Q, 500%Q, 50%Q, 200000%Q);
                    (200, 700%Q, 300%Q, 0%Q, 210000%Q);
                    (300, 20%Q, 0%Q, 0%Q, 220000%Q)] |}.
Proof.
  destruct (C4_latest_total_formula
              [(100, 0%Q, 500%Q, 50%Q, 200000%Q); (200, 700%Q, 300%Q, 0%Q, 210000%Q)]
              300 20%Q 0%Q 0%Q 220000%Q) as [_ H].
  apply (H sample_ethPrices (λ _, sample_values) range_7d None); reflexivity.
Defined.

(** C5 as stated fails on the spec's own example: the native component of
    the emitted point is 500, the summed magnitude itself, not 5.0. *)
Lemma C5_counterexample :
  getChartData spec_values spec_ethPrices false
    = Ok [(100, 500%Q, 0%Q, 0%Q, 200000%Q)]
  ∧ ¬ (500 == 5)%Q
  ∧ getChartData spec_values spec_ethPrices false
    ≠ Ok [(100, 5%Q, 0%Q, 0%Q, 200000%Q)].
Proof. split_and!; [by vm_compute | by vm_compute | by vm_compute]. Qed.

(** C5 (amended): every emitted chart point is the tuple
    (timestamp, native, canonical, external, price * 100) where each
    component is the summed fixed-point integer converted to a number of
    the same value, without rescaling; for the spec's example input the
    chart is [(100, 500, 0, 0, 200000)]. *)
Theorem C5_components_not_rescaled values ethPrices excl :
  getChartData spec_values spec_ethPrices false
    = Ok [(100, 500%Q, 0%Q, 0%Q, 200000%Q)]
  ∧ (∀ chart, getChartData values ethPrices excl = Ok chart →
       Forall2
         (λ entry p,
            let summed := sumValuesPerSource entry.2 (chartOptions excl) in
            ∃ ethPrice, ethPrices !! entry.1 = Some ethPrice
              ∧ p = (entry.1, inject_Z (native summed), inject_Z (canonical summed),
                     inject_Z (external summed), (ethPrice * 100)%Q))
         (Object_entries (timestampValues values)) chart).
Proof.
  split; [by vm_compute|].
  intros chart Hchart. apply array_map_Ok in Hchart.
  eapply Forall2_impl; [exact Hchart|]. intros entry p Hp. simpl.
  apply chartPoint_Ok in Hp as (ethPrice & Hprice & _ & ->). by exists ethPrice.
Qed.

(** C6: reordering the projects of the Project-Value Map changes no chart
    point's summed native, canonical or external value, and the
    per-timestamp merge collects the records of every project.  For each
    timestamp the merged records are, up to order, all the records any
    project holds for it; the reordered input has the same merged
    timestamps and the same sums at each, and its chart holds the same
    points (the very same result when the timestamps are array index
    keys). *)
Theorem C6_project_order_irrelevant values values' ethPrices excl :
  values ≡ₚ values' →
  (∀ t, default [] (obj_get (timestampValues values) t) ≡ₚ allRecordsAt t values)
  ∧ (∀ t, is_Some (obj_get (timestampValues values') t)
          ↔ is_Some (obj_get (timestampValues values) t))
  ∧ (∀ t options,
       sumValuesPerSource (default [] (obj_get (timestampValues values') t)) options
       = sumValuesPerSource (default [] (obj_get (timestampValues values) t)) options)
  ∧ (∀ chart, getChartData values ethPrices excl = Ok chart →
       ∃ chart', getChartData values' ethPrices excl = Ok chart' ∧ chart' ≡ₚ chart)
  ∧ ((∀ t, t ∈ allTimestamps values → isArrayIndex t) →
     getChartData values' ethPrices excl = getChartData values ethPrices excl).
Proof.
  intros Hperm. split_and!.
  - apply timestampValues_records.
  - intros t.
    by rewrite !obj_get_is_Some, !timestampValues_keys,
      (allTimestamps_Permutation _ _ Hperm).
  - intros t options. by apply timestampValues_sum_Permutation.
  - intros chart Hchart.
    destruct (getChartData_Ok values' ethPrices excl) as [chart' Hchart'].
    { intros t Hin. eapply getChartData_Ok_priceOk; [exact Hchart|].
      by rewrite (allTimestamps_Permutation _ _ Hperm). }
    exists chart'. split; [done|].
    rewrite (getChartData_points _ _ _ _ Hchart), (getChartData_points _ _ _ _ Hchart').
    rewrite (Object_keys_timestampValues_Permutation _ _ Hperm).
    match goal with |- ?l1 ≡ₚ ?l2 => assert (l1 = l2) as ->; [|done] end.
    apply list_fmap_ext. intros _ t _.
    apply pointOf_sum. by apply timestampValues_sum_Permutation.
  - intros Hidx. rewrite !getChartData_by_keys.
    assert (Object_keys (timestampValues values')
            = Object_keys (timestampValues values)) as ->.
    { apply (StronglySorted_unique_strong Z.lt).
      - intros; lia.
      - apply Object_keys_index_sorted; [|apply timestampValues_NoDup].
        intros t Hin. apply Hidx.
        by rewrite (allTimestamps_Permutation _ _ Hperm), <- timestampValues_keys.
      - apply Object_keys_index_sorted; [|apply timestampValues_NoDup].
        intros t Hin. apply Hidx. by rewrite <- timestampValues_keys.
      - by apply Object_keys_timestampValues_Permutation. }
    apply array_map_ext_in. intros t _.
    apply chartPoint_sum. by apply timestampValues_sum_Permutation.
Qed.

Lemma C6_witness :
  (∀ t, default [] (obj_get (timestampValues sample_values) t)
        ≡ₚ allRecordsAt t sample_values)
  ∧ getChartData (reverse sample_values) sample_ethPrices false
    = getChartData sample_values sample_ethPrices false.
Proof.
  destruct (C6_project_order_irrelevant sample_values (reverse sample_values)
              sample_ethPrices false) as (Hall & _ & _ & _ & Heq).
  - apply Permutation_sym, reverse_Permutation.
  - split; [exact Hall|]. apply Heq.
    evaluate_all.
Defined.

(** C7: with [excludeAssociatedTokens] set, the native and canonical totals
    of every chart point are at most the totals the same input yields with
    the flag unset (value records carrying magnitudes, which are not
    negative). *)
Theorem C7_exclusion_never_increases values ethPrices :
  (∀ r, r ∈ allRecords values → 0 ≤ value r) →
  (∀ t, t ∈ allTimestamps values → priceOk ethPrices t = true) →
  ∃ excluded included,
    getChartData values ethPrices true = Ok excluded
    ∧ getChartData values ethPrices false = Ok included
    ∧ Forall2
        (λ p q, cp_timestamp p = cp_timestamp q
                ∧ (cp_native p <= cp_native q)%Q
                ∧ (cp_canonical p <= cp_canonical q)%Q)
        excluded included.
Proof.
  intros Hnonneg Hprices.
  destruct (getChartData_Ok values ethPrices true Hprices) as [excluded Hex].
  destruct (getChartData_Ok values ethPrices false Hprices) as [included Hin].
  exists excluded, included. split_and!; [done..|].
  rewrite (getChartData_points _ _ _ _ Hex), (getChartData_points _ _ _ _ Hin).
  apply Forall2_fmap, Forall_Forall2_diag, Forall_forall. intros t _.
  unfold pointOf, cp_timestamp, cp_native, cp_canonical. simpl.
  rewrite !sumValuesPerSource_sumOf. simpl.
  assert (∀ r, r ∈ default [] (obj_get (timestampValues values) t) → 0 ≤ value r)
    as Hrecs.
  { intros r Hr. apply Hnonneg, (allRecordsAt_allRecords t).
    by rewrite <- timestampValues_records. }
  split_and!; [done | |]; by apply Number_le, sumOf_exclude_le.
Qed.

Lemma C7_witness :
  ∃ excluded included,
    getChartData sample_values sample_ethPrices true = Ok excluded
    ∧ getChartData sample_values sample_ethPrices false = Ok included
    ∧ Forall2
        (λ p q, cp_timestamp p = cp_timestamp q
                ∧ (cp_native p <= cp_native q)%Q
                ∧ (cp_canonical p <= cp_canonical q)%Q)
        excluded included.
Proof.
  apply (C7_exclusion_never_increases sample_values sample_ethPrices).
  - evaluate_all.
  - evaluate_all.
Defined.

(** C8: the chart is ordered by timestamp ascending.  [getChartData] emits
    one tuple per key of the merged map, in the order in which
    [Object.entries] enumerates that map, and sorts nothing itself; when the
    merged map's insertion order is chronological (timestamps being seconds
    since the epoch), that enumeration is the insertion order, so the
    chart's timestamps are strictly ascending. *)
Theorem C8_chart_in_map_order values ethPrices excl :
  (∀ t, t ∈ allTimestamps values → priceOk ethPrices t = true) →
  (∀ t, t ∈ allTimestamps values → 0 ≤ t) →
  StronglySorted Z.lt (timestampValues values).*1 →
  ∃ chart, getChartData values ethPrices excl = Ok chart
    ∧ cp_timestamp <$> chart = Object_keys (timestampValues values)
    ∧ cp_timestamp <$> chart = (timestampValues values).*1
    ∧ StronglySorted Z.lt (cp_timestamp <$> chart).
Proof.
  intros Hprices Hnonneg Hsorted.
  destruct (getChartData_Ok values ethPrices excl Hprices) as [chart Hchart].
  exists chart. split; [done|].
  pose proof (getChartData_timestamps _ _ _ _ Hchart) as Hkeys.
  split; [done|]. rewrite Hkeys. unfold Object_keys.
  rewrite Object_entries_chronological; [done| |done].
  intros t Hin. by apply Hnonneg, timestampValues_keys.
Qed.

Lemma C8_witness :
  ∃ chart, getChartData sample_values sample_ethPrices false = Ok chart
    ∧ cp_timestamp <$> chart = Object_keys (timestampValues sample_values)
    ∧ cp_timestamp <$> chart = [100; 200; 300]
    ∧ StronglySorted Z.lt (cp_timestamp <$> chart).
Proof.
  apply (C8_chart_in_map_order sample_values sample_ethPrices false).
  - evaluate_all.
  - evaluate_all.
  - evaluate.
Defined.

(** C9: in mock mode, for range '7d' at hourly resolution, the chart holds
    one point per hourly bucket from (target - 7 days) to target, both
    boundaries included (7 * 24 + 1 of them), and every point carries the
    placeholder magnitudes 3000, 2000, 1000 and 1200. *)
Theorem C9_mock_week getRangeConfig now :
  getRangeConfig range_7d = {| days := Some 7; resolution := hourly |} →
  let target := toStartOf now HOUR in
  let data := getMockTvlChartData getRangeConfig now range_7d in
  (∀ ethPrices getTvlValuesForProjects excl,
     getTvlChartData true getRangeConfig now ethPrices getTvlValuesForProjects
       range_7d excl = Ok data)
  ∧ length (chart data) = 169%nat
  ∧ cp_timestamp <$> chart data
    = (λ i, target - 7 * DAY + i * HOUR) <$> seqZ 0 (7 * 24 + 1)
  ∧ NoDup (cp_timestamp <$> chart data)
  ∧ (∀ t, t ∈ cp_timestamp <$> chart data
          ↔ target - 7 * DAY ≤ t ≤ target ∧ t mod HOUR = 0)
  ∧ Forall (λ p, cp_native p = 3000%Q ∧ cp_canonical p = 2000%Q
                 ∧ cp_external p = 1000%Q ∧ cp_ethPrice p = 1200%Q)
      (chart data).
Proof.
  intros Hconfig target data.
  assert (chart data
          = (λ timestamp, (timestamp, 3000%Q, 2000%Q, 1000%Q, 1200%Q))
              <$> ((λ i, target - 7 * DAY + i * HOUR) <$> seqZ 0 (7 * 24 + 1)))
    as Hchart.
  { unfold data, getMockTvlChartData. rewrite Hconfig. simpl.
    by rewrite generateTimestamps_week. }
  assert (cp_timestamp <$> chart data
          = (λ i, target - 7 * DAY + i * HOUR) <$> seqZ 0 (7 * 24 + 1)) as Hkeys.
  { by rewrite Hchart, <- list_fmap_compose. }
  split_and!.
  - done.
  - by rewrite Hchart, !length_fmap, length_seqZ.
  - done.
  - rewrite Hkeys. apply NoDup_fmap_2; [|apply NoDup_seqZ].
    intros i j. unfold HOUR. lia.
  - intros t. rewrite Hkeys, list_elem_of_fmap.
    destruct (toStartOf_HOUR now) as [k Hk]. fold target in Hk.
    unfold DAY, HOUR in *. split.
    + intros (i & -> & Hi%elem_of_seqZ). split; [lia|].
      replace (target - 7 * 86400 + i * 3600) with ((k - 168 + i) * 3600) by lia.
      apply Z.mod_mul. done.
    + intros [Hrange Hmod]. apply Z.mod_divide in Hmod as [j ->]; [|done].
      exists (j - k + 168). split; [lia|]. apply elem_of_seqZ. lia.
  - rewrite Hchart. apply Forall_fmap, Forall_forall. by intros t _.
Qed.

Lemma C9_witness :
  let target := toStartOf 1700001234 HOUR in
  let data :=
    getMockTvlChartData (λ _, {| days := Some 7; resolution := hourly |})
      1700001234 range_7d in
  (∀ ethPrices getTvlValuesForProjects excl,
     getTvlChartData true (λ _, {| days := Some 7; resolution := hourly |})
       1700001234 ethPrices getTvlValuesForProjects range_7d excl = Ok data)
  ∧ length (chart data) = 169%nat
  ∧ cp_timestamp <$> chart data
    = (λ i, target - 7 * DAY + i * HOUR) <$> seqZ 0 (7 * 24 + 1)
  ∧ NoDup (cp_timestamp <$> chart data)
  ∧ (∀ t, t ∈ cp_timestamp <$> chart data
          ↔ target - 7 * DAY ≤ t ≤ target ∧ t mod HOUR = 0)
  ∧ Forall (λ p, cp_native p = 3000%Q ∧ cp_canonical p = 2000%Q
                 ∧ cp_external p = 1000%Q ∧ cp_ethPrice p = 1200%Q)
      (chart data).
Proof.
  apply (C9_mock_week (λ _, {| days := Some 7; resolution := hourly |}) 1700001234).
  reflexivity.
Defined.

(** C10: the price check of [getChartData] is by truthiness, not by
    presence.  A Price Map entry that is present but equal to 0 behaves as
    an absent one: the call gives the same result as with the entry removed,
    and when its timestamp occurs in the value map that result is the
    'No ETH price' error.  So every emitted chart point has a price entry
    that exists and is nonzero. *)
Theorem C10_price_check_by_truthiness values ethPrices excl :
  (∀ t ethPrice, ethPrices !! t = Some ethPrice → (ethPrice == 0)%Q →
     getChartData values ethPrices excl
       = getChartData values (delete t ethPrices) excl
     ∧ (t ∈ allTimestamps values →
        ∃ t', getChartData values ethPrices excl = Throw (NoEthPriceFor t')))
  ∧ (∀ chart p, getChartData values ethPrices excl = Ok chart → p ∈ chart →
     ∃ ethPrice, ethPrices !! cp_timestamp p = Some ethPrice
       ∧ ¬ (ethPrice == 0)%Q
       ∧ cp_ethPrice p = (ethPrice * 100)%Q).
Proof.
  split.
  - intros t ethPrice Hprice Hzero. split.
    + apply array_map_ext. intros entry. by eapply chartPoint_delete_zero.
    + intros Hin.
      destruct (getChartData_fails values ethPrices excl t Hin) as (t' & ? & _).
      * unfold priceOk. rewrite Hprice. by apply number_truthy_false.
      * by exists t'.
  - intros chart p Hchart Hp.
    destruct (array_map_Ok_r _ _ _ _ Hchart Hp) as (entry & _ & Hentry).
    apply chartPoint_Ok in Hentry as (ethPrice & Hprice & Htruthy & ->).
    exists ethPrice. split_and!; [done | by apply number_truthy_true | done].
Qed.

Lemma C10_witness :
  getChartData sample_values sample_ethPrices_zero false
    = getChartData sample_values (delete 200 sample_ethPrices_zero) false
  ∧ ∃ t', getChartData sample_values sample_ethPrices_zero false
            = Throw (NoEthPriceFor t').
Proof.
  destruct (C10_price_check_by_truthiness sample_values sample_ethPrices_zero false)
    as [Hzero _].
  destruct (Hzero 200 0%Q) as [Heq Hthrow]; [reflexivity | reflexivity |].
  split; [exact Heq|]. apply Hthrow. evaluate.
Defined.

(** ** Further properties *)

(** When every timestamp is an array index key (0 <= t < 2^32 - 1, as Unix
    timestamps in seconds are until 2106), the chart is strictly ascending by
    timestamp whatever the order in which the timestamps entered the merged
    map. *)
Theorem X1_index_timestamps_ascending values ethPrices excl chart :
  (∀ t, t ∈ allTimestamps values → isArrayIndex t) →
  getChartData values ethPrices excl = Ok chart →
  StronglySorted Z.lt (cp_timestamp <$> chart).
Proof.
  intros Hidx Hchart. rewrite (getChartData_timestamps _ _ _ _ Hchart).
  apply Object_keys_index_sorted; [|apply timestampValues_NoDup].
  intros t Hin. by apply Hidx, timestampValues_keys.
Qed.

Lemma X1_witness :
  (timestampValues unordered_values).*1 = [200; 100]
  ∧ getChartData unordered_values sample_ethPrices false
    = Ok [(100, 20%Q, 0%Q, 0%Q, 200000%Q); (200, 700%Q, 0%Q, 0%Q, 210000%Q)]
  ∧ StronglySorted Z.lt
      (cp_timestamp <$> [(100, 20%Q, 0%Q, 0%Q, 200000%Q);
                         (200, 700%Q, 0%Q, 0%Q, 210000%Q)]).
Proof.
  split; [by vm_compute|]. split; [by vm_compute|].
  apply (X1_index_timestamps_ascending unordered_values sample_ethPrices false).
  - evaluate_all.
  - by vm_compute.
Defined.

(** *** Which error, and when *)

Lemma array_map_Throw_intro {A B : Type} (f : A → Result B) before x after e :
  (∀ y, y ∈ before → ∃ z, f y = Ok z) → f x = Throw e →
  array_map f (before ++ x :: after) = Throw e.
Proof.
  intros Hbefore Hx. induction before as [|y before IH]; simpl.
  - by rewrite Hx.
  - destruct (Hbefore y) as [z ->]; [left|]. simpl.
    rewrite IH; [done|]. intros; apply Hbefore; by right.
Qed.

Lemma array_map_Throw_first {A B : Type} (f : A → Result B) xs e :
  array_map f xs = Throw e ↔
  ∃ before x after, xs = before ++ x :: after
    ∧ (∀ y, y ∈ before → ∃ z, f y = Ok z)
    ∧ f x = Throw e.
Proof.
  split.
  - induction xs as [|x xs IH]; simpl; [done|].
    destruct (f x) as [z|e'] eqn:Hx; simpl.
    + destruct (array_map f xs) as [zs|e'] eqn:Hxs; simpl; [done|].
      intros [= ->]. destruct IH as (before & x' & after & -> & ? & ?); [done|].
      exists (x :: before), x', after. split_and!; [done | | done].
      intros y [->|Hy]%elem_of_cons; [by exists z | auto].
    + intros [= ->]. exists [], x, xs. split_and!; [done | | done].
      intros y Hy. by apply elem_of_nil in Hy.
  - intros (before & x & after & -> & Hbefore & Hx).
    by apply array_map_Throw_intro.
Qed.

Lemma chartPoint_Ok_priceOk ethPrices excl entry :
  (∃ p, chartPoint ethPrices excl entry = Ok p) ↔ priceOk ethPrices entry.1 = true.
Proof.
  split; [|apply chartPoint_priceOk].
  intros [p (ethPrice & Hprice & Htruthy & _)%chartPoint_Ok].
  unfold priceOk. by rewrite Hprice.
Qed.

(** X2: when [getChartData] fails, the error names the first timestamp, in
    the enumeration order of the merged map, whose price is missing or
    zero; every timestamp enumerated before it has a usable price. *)
Theorem X2_error_names_first_missing_price values ethPrices excl t :
  getChartData values ethPrices excl = Throw (NoEthPriceFor t) ↔
  ∃ before after,
    Object_keys (timestampValues values) = before ++ t :: after
    ∧ (∀ t', t' ∈ before → priceOk ethPrices t' = true)
    ∧ priceOk ethPrices t = false.
Proof.
  rewrite getChartData_by_keys, array_map_Throw_first. split.
  - intros (before & t' & after & Hkeys & Hbefore & Ht').
    apply chartPoint_Throw in Ht' as [[= ->] Hbad]. simpl in Hbad.
    exists before, after. split_and!; [done | | done].
    intros t'' Hin.
    by apply (chartPoint_Ok_priceOk ethPrices excl
                (t'', default [] (obj_get (timestampValues values) t''))),
      Hbefore.
  - intros (before & after & Hkeys & Hbefore & Hbad).
    exists before, t, after. split_and!; [done | |].
    + intros t' Hin.
      by apply (chartPoint_Ok_priceOk ethPrices excl
                  (t', default [] (obj_get (timestampValues values) t'))),
        Hbefore.
    + by apply chartPoint_Throw.
Qed.

Lemma X2_witness :
  getChartData sample_values sample_ethPrices_missing false
  = Throw (NoEthPriceFor 200).
Proof.
  apply (X2_error_names_first_missing_price sample_values
           sample_ethPrices_missing false 200).
  exists [100], [300]. split_and!; [by vm_compute | | by vm_compute].
  intros t' ->%list_elem_of_singleton. by vm_compute.
Defined.

(** *** What the result depends on *)

Lemma getChartData_flag_Throw values ethPrices excl excl' e :
  getChartData values ethPrices excl = Throw e →
  getChartData values ethPrices excl' = Throw e.
Proof.
  rewrite !getChartData_by_keys, !array_map_Throw_first.
  intros (before & t & after & Hkeys & Hbefore & Ht).
  exists before, t, after. split_and!; [done | |].
  - intros t' Hin.
    apply (chartPoint_Ok_priceOk ethPrices excl'
             (t', default [] (obj_get (timestampValues values) t'))).
    by apply (chartPoint_Ok_priceOk ethPrices excl
                (t', default [] (obj_get (timestampValues values) t'))),
      Hbefore.
  - apply chartPoint_Throw. by apply chartPoint_Throw in Ht.
Qed.

(** X3: [excludeAssociatedTokens] changes nothing but the summed
    components.  The call fails with the same error under either value of
    the flag, and two successful charts agree, point by point, on the
    timestamp and on the price component. *)
Theorem X3_flag_changes_sums_only values ethPrices :
  (∀ e, getChartData values ethPrices true = Throw e
        ↔ getChartData values ethPrices false = Throw e)
  ∧ (∀ excluded included,
       getChartData values ethPrices true = Ok excluded →
       getChartData values ethPrices false = Ok included →
       (λ p, (cp_timestamp p, cp_ethPrice p)) <$> excluded
       = (λ p, (cp_timestamp p, cp_ethPrice p)) <$> included).
Proof.
  split.
  - intros e. split; apply getChartData_flag_Throw.
  - intros excluded included Hex Hin.
    rewrite (getChartData_points _ _ _ _ Hex), (getChartData_points _ _ _ _ Hin).
    rewrite <- !list_fmap_compose. by apply list_fmap_ext.
Qed.

Lemma X3_witness :
  (λ p, (cp_timestamp p, cp_ethPrice p))
    <$> [(100, 0%Q, 0%Q, 50%Q, 200000%Q); (200, 0%Q, 300%Q, 0%Q, 210000%Q);
         (300, 20%Q, 0%Q, 0%Q, 220000%Q)]
  = (λ p, (cp_timestamp p, cp_ethPrice p))
    <$> [(100, 0%Q, 500%Q, 50%Q, 200000%Q); (200, 700%Q, 300%Q, 0%Q, 210000%Q);
         (300, 20%Q, 0%Q, 0%Q, 220000%Q)].
Proof.
  destruct (X3_flag_changes_sums_only sample_values sample_ethPrices) as [_ H].
  apply H; by vm_compute.
Defined.

(** X9: [getChartData] reads the Price Map only at the timestamps of the
    value map: two Price Maps that agree there give the same result, so
    entries for other timestamps are ignored. *)
Theorem X9_unused_prices_ignored values ethPrices ethPrices' excl :
  (∀ t, t ∈ allTimestamps values → ethPrices !! t = ethPrices' !! t) →
  getChartData values ethPrices excl = getChartData values ethPrices' excl.
Proof.
  intros Hagree. apply array_map_ext_in. intros [t vs] Hin.
  rewrite elem_of_Object_entries in Hin.
  unfold chartPoint. rewrite Hagree; [done|].
  by apply timestampValues_keys, (elem_of_keys _ t vs).
Qed.

Lemma X9_witness :
  getChartData sample_values sample_ethPrices true
  = getChartData sample_values (<[ 999 := 0%Q ]> sample_ethPrices) true.
Proof.
  apply (X9_unused_prices_ignored sample_values sample_ethPrices
           (<[ 999 := 0%Q ]> sample_ethPrices) true).
  intros t Hin. symmetry. apply lookup_insert_ne. intros <-. revert Hin.
  change (999 ∉ allTimestamps sample_values). evaluate.
Defined.

(** *** The merged records *)

Lemma recordsAt_NoDup t es :
  NoDup es.*1 → recordsAt t es = default [] (obj_get es t).
Proof.
  induction es as [|[k vs] es IH]; [done|].
  rewrite fmap_cons, NoDup_cons, recordsAt_cons. intros [Hk Hnd]. simpl.
  destruct (decide (k = t)) as [->|Hne]; simpl.
  - by rewrite recordsAt_not_elem, app_nil_r.
  - auto.
Qed.

Lemma obj_get_Permutation {V : Type} (o o' : JsObject V) k :
  NoDup o.*1 → o ≡ₚ o' → obj_get o k = obj_get o' k.
Proof.
  intros Hnd Hperm.
  destruct (obj_get o k) as [v|] eqn:Hget; symmetry.
  - apply obj_get_elem; [by rewrite <- Hperm|].
    rewrite <- Hperm. by apply obj_get_Some_elem.
  - apply obj_get_None. rewrite <- Hperm. by apply obj_get_None.
Qed.

Lemma recordsAt_bind {A : Type} t (f : A → list (Z * list ValueRecord)) l :
  recordsAt t (l ≫= f) = l ≫= (λ x, recordsAt t (f x)).
Proof.
  induction l as [|x l IH]; csimpl; [done|]. by rewrite recordsAt_app, IH.
Qed.

(** X8: for dictionaries with one property per timestamp, the records the
    merge collects for a timestamp are the concatenation, in project
    order, of each project's own record sequence for that timestamp
    (nothing for a project that lacks it): none is dropped, repeated or
    moved. *)
Theorem X8_merge_concatenates_in_project_order values t :
  (∀ projectValues, projectValues ∈ Object_values values → NoDup projectValues.*1) →
  default [] (obj_get (timestampValues values) t)
  = Object_values values ≫= (λ projectValues, default [] (obj_get projectValues t)).
Proof.
  intros Hwf.
  assert (default [] (obj_get (timestampValues values) t)
          = recordsAt t (visitedEntries values)) as ->.
  { rewrite timestampValues_get. case_decide as Hin; [done|]. simpl.
    rewrite recordsAt_not_elem; [done | by rewrite visitedEntries_keys]. }
  unfold visitedEntries. rewrite recordsAt_bind.
  revert Hwf. induction (Object_values values) as [|pv pvs IH]; intros Hwf;
    csimpl; [done|].
  rewrite IH by (intros; apply Hwf; by right). f_equal.
  assert (NoDup pv.*1) as Hnd by (apply Hwf; left).
  rewrite recordsAt_NoDup by by rewrite Object_entries_Permutation.
  f_equal. symmetry. apply obj_get_Permutation; [done|].
  symmetry. apply Object_entries_Permutation.
Qed.

Lemma X8_witness :
  default [] (obj_get (timestampValues sample_values) 100)
  = [record 100 src_canonical 500 true; record 100 src_external 50 false].
Proof.
  rewrite (X8_merge_concatenates_in_project_order sample_values 100).
  - reflexivity.
  - evaluate_all.
Defined.

(** *** getCachedTvlChartData *)

Lemma lastWeekValues_eq {A : Type} (getTvlValuesForProjects : TvlChartRange → A) range :
  (if decide (range = range_7d) then getTvlValuesForProjects range
   else getTvlValuesForProjects range_7d)
  = getTvlValuesForProjects range_7d.
Proof. by case_decide; subst. Qed.

Lemma getCachedTvlChartData_Ok ethPrices getTvlValuesForProjects range excl data :
  getCachedTvlChartData ethPrices getTvlValuesForProjects range excl = Ok data ↔
  ∃ lastWeekChart,
    getChartData (getTvlValuesForProjects range_7d) ethPrices (default false excl)
      = Ok lastWeekChart
    ∧ computeTotal lastWeekChart = Ok (total data)
    ∧ getChartData (getTvlValuesForProjects range) ethPrices (default false excl)
      = Ok (chart data).
Proof.
  unfold getCachedTvlChartData. rewrite lastWeekValues_eq.
  destruct (getChartData (getTvlValuesForProjects range_7d) _ _) as [lwc|e];
    simpl; [|split; [done | by intros (? & ? & _)]].
  destruct (computeTotal lwc) as [tot|e] eqn:Htot; simpl.
  - destruct (getChartData (getTvlValuesForProjects range) _ _) as [c|e]; simpl.
    + split.
      * intros [= <-]. by exists lwc.
      * intros (? & [= <-] & Htot' & [= Hc]). destruct data as [tot' c'].
        simpl in *. rewrite Htot in Htot'. by simplify_eq.
    + split; [done | by intros (? & _ & _ & ?)].
  - split; [done|]. intros (? & [= <-] & Htot' & _). congruence.
Qed.

Lemma computeTotal_Ok chart :
  (∃ tot, computeTotal chart = Ok tot) ↔ chart ≠ [].
Proof.
  destruct chart as [|p chart _] using rev_ind.
  - split; [by intros [? ?] | done].
  - rewrite computeTotal_snoc. split; [intros _; by destruct chart | by eexists].
Qed.

Lemma getChartData_nil values ethPrices excl chart :
  getChartData values ethPrices excl = Ok chart →
  chart = [] ↔ allTimestamps values = [].
Proof.
  intros Hlen%getChartData_length. unfold distinctTimestamps in Hlen.
  split.
  - intros ->. destruct (allTimestamps values) as [|t ts] eqn:Hts; [done|].
    assert (t ∈ remove_dups (t :: ts)) as Hin by (apply elem_of_remove_dups; left).
    destruct (remove_dups (t :: ts)); [by apply elem_of_nil in Hin | done].
  - intros Hnil. rewrite Hnil in Hlen. by destruct chart.
Qed.

(** X4: the [total] of [getCachedTvlChartData] comes from the 7-day data
    alone.  Two successful calls that differ only in the requested range
    return the same total; and for range '7d' the returned chart is not
    empty and the total is the latest total of that very chart. *)
Theorem X4_total_comes_from_last_week ethPrices getTvlValuesForProjects excl :
  (∀ range1 range2 data1 data2,
     getCachedTvlChartData ethPrices getTvlValuesForProjects range1 excl = Ok data1 →
     getCachedTvlChartData ethPrices getTvlValuesForProjects range2 excl = Ok data2 →
     total data1 = total data2)
  ∧ (∀ data,
       getCachedTvlChartData ethPrices getTvlValuesForProjects range_7d excl
         = Ok data →
       chart data ≠ [] ∧ computeTotal (chart data) = Ok (total data)).
Proof.
  split.
  - intros range1 range2 data1 data2.
    rewrite !getCachedTvlChartData_Ok.
    intros (lwc1 & Hlwc1 & Htot1 & _) (lwc2 & Hlwc2 & Htot2 & _).
    rewrite Hlwc1 in Hlwc2. simplify_eq. congruence.
  - intros data (lwc & Hlwc & Htot & Hchart)%getCachedTvlChartData_Ok.
    rewrite Hlwc in Hchart. simplify_eq. split; [|done].
    apply computeTotal_Ok. by eexists.
Qed.

Lemma X4_witness :
  ∃ data1 data2,
    getCachedTvlChartData sample_ethPrices
      (λ range, if decide (range = range_7d) then sample_values else unordered_values)
      range_7d None = Ok data1
    ∧ getCachedTvlChartData sample_ethPrices
        (λ range, if decide (range = range_7d) then sample_values else unordered_values)
        (range_other "30d") None = Ok data2
    ∧ chart data1 ≠ chart data2
    ∧ total data1 = total data2.
Proof.
  eexists _, _. split; [by vm_compute|]. split; [by vm_compute|].
  split; [by vm_compute|].
  destruct (X4_total_comes_from_last_week sample_ethPrices
              (λ range, if decide (range = range_7d) then sample_values
                        else unordered_values) None) as [H _].
  by apply (H range_7d (range_other "30d")); vm_compute.
Defined.

(** X5: [getCachedTvlChartData] succeeds exactly when the 7-day data has at
    least one timestamp and every timestamp of the 7-day data and of the
    requested range has a usable (present, nonzero) price.  It fails with
    'No latest value' exactly when the 7-day data has no timestamp at all,
    whatever the requested range holds. *)
Theorem X5_cached_succeeds_iff ethPrices getTvlValuesForProjects range excl :
  ((∃ data,
      getCachedTvlChartData ethPrices getTvlValuesForProjects range excl = Ok data)
   ↔ allTimestamps (getTvlValuesForProjects range_7d) ≠ []
     ∧ (∀ t, t ∈ allTimestamps (getTvlValuesForProjects range_7d) →
             priceOk ethPrices t = true)
     ∧ (∀ t, t ∈ allTimestamps (getTvlValuesForProjects range) →
             priceOk ethPrices t = true))
  ∧ (getCachedTvlChartData ethPrices getTvlValuesForProjects range excl
       = Throw NoLatestValue
     ↔ allTimestamps (getTvlValuesForProjects range_7d) = []).
Proof.
  split.
  - split.
    + intros [data (lwc & Hlwc & Htot & Hchart)%getCachedTvlChartData_Ok].
      split_and!.
      * rewrite <- (getChartData_nil _ _ _ _ Hlwc). apply computeTotal_Ok.
        by eexists.
      * intros t. by eapply getChartData_Ok_priceOk.
      * intros t. by eapply getChartData_Ok_priceOk.
    + intros (Hne & Hweek & Hrange).
      destruct (getChartData_Ok _ ethPrices (default false excl) Hweek)
        as [lwc Hlwc].
      destruct (getChartData_Ok _ ethPrices (default false excl) Hrange)
        as [c Hc].
      destruct (proj2 (computeTotal_Ok lwc)) as [tot Htot].
      { by rewrite (getChartData_nil _ _ _ _ Hlwc). }
      exists {| total := tot; chart := c |}.
      apply getCachedTvlChartData_Ok. by exists lwc.
  - unfold getCachedTvlChartData. rewrite lastWeekValues_eq.
    destruct (getChartData (getTvlValuesForProjects range_7d) _ _)
      as [lwc|e] eqn:Hlwc; simpl.
    + rewrite <- (getChartData_nil _ _ _ _ Hlwc).
      destruct lwc as [|p lwc _] using rev_ind; [done|].
      rewrite computeTotal_snoc. simpl.
      split; [|intros Heq; by destruct lwc].
      destruct (getChartData (getTvlValuesForProjects range) _ _)
        as [c|e] eqn:Hc; simpl; [done|].
      intros [= ->]. by apply getChartData_not_NoLatestValue in Hc.
    + split.
      * intros [= ->]. by apply getChartData_not_NoLatestValue in Hlwc.
      * intros Hnil.
        destruct (getChartData_Ok (getTvlValuesForProjects range_7d) ethPrices
                    (default false excl)) as [c Hc]; [|congruence].
        intros t. rewrite Hnil. by intros ?%elem_of_nil.
Qed.

Lemma X5_witness :
  getCachedTvlChartData sample_ethPrices
    (λ range, if decide (range = range_7d) then [] else sample_values)
    (range_other "30d") None
  = Throw NoLatestValue.
Proof.
  destruct (X5_cached_succeeds_iff sample_ethPrices
              (λ range, if decide (range = range_7d) then [] else sample_values)
              (range_other "30d") None) as [_ H].
  by apply H.
Defined.

(** X6: in a successful result of [getCachedTvlChartData], the total is
    read off the last timestamp [t] that the 7-day merged map enumerates:
    with [sum] the native, canonical and external sums of the records
    merged for [t], added up, [total.usd] is [sum / 100] and [total.eth] is
    [sum / (ethPrice * 100)] for the price entry of [t].  That entry exists
    and is not zero, and neither is the divisor [ethPrice * 100]. *)
Theorem X6_total_reads_last_week_timestamp ethPrices getTvlValuesForProjects range excl data :
  getCachedTvlChartData ethPrices getTvlValuesForProjects range excl = Ok data →
  ∃ init t ethPrice,
    Object_keys (timestampValues (getTvlValuesForProjects range_7d)) = init ++ [t]
    ∧ ethPrices !! t = Some ethPrice
    ∧ ¬ (ethPrice == 0)%Q
    ∧ ¬ (ethPrice * 100 == 0)%Q
    ∧ let summed :=
        sumValuesPerSource
          (default [] (obj_get (timestampValues (getTvlValuesForProjects range_7d)) t))
          (chartOptions (default false excl)) in
      let sum :=
        (Number (native summed) + Number (canonical summed)
         + Number (external summed))%Q in
      total data = {| usd := (sum / 100)%Q; eth := (sum / (ethPrice * 100))%Q |}.
Proof.
  intros (lwc & Hlwc & Htot & _)%getCachedTvlChartData_Ok.
  destruct lwc as [|p lwc _] using rev_ind; [done|].
  rewrite computeTotal_snoc in Htot. injection Htot as Htot.
  pose proof (getChartData_points _ _ _ _ Hlwc) as Hpoints.
  symmetry in Hpoints.
  apply fmap_app_inv in Hpoints as (init & last & _ & Hp & Hkeys).
  destruct last as [|t [|? ?]]; simplify_eq/=.
  assert (priceOk ethPrices t = true) as (ethPrice & Hprice & Hne)%priceOk_true.
  { eapply getChartData_Ok_priceOk; [exact Hlwc|].
    apply timestampValues_keys. rewrite <- Object_keys_Permutation, Hkeys.
    apply elem_of_app. right. left. }
  exists init, t, ethPrice. split_and!; [done | done | done | |].
  - intros [Hzero|Hzero]%Qmult_integral; [done | by vm_compute in Hzero].
  - destruct data as [tot c]. simpl in *. subst tot.
    unfold pointOf, cp_ethPrice, cp_native, cp_canonical, cp_external, chartOptions.
    simpl. by rewrite Hprice.
Qed.

Lemma X6_witness :
  ∃ init t ethPrice,
    Object_keys (timestampValues sample_values) = init ++ [t]
    ∧ sample_ethPrices !! t = Some ethPrice
    ∧ ¬ (ethPrice == 0)%Q
    ∧ ¬ (ethPrice * 100 == 0)%Q
    ∧ let summed :=
        sumValuesPerSource (default [] (obj_get (timestampValues sample_values) t))
          (chartOptions false) in
      let sum :=
        (Number (native summed) + Number (canonical summed)
         + Number (external summed))%Q in
      {| usd := ((20 + 0 + 0) / 100)%Q; eth := ((20 + 0 + 0) / 220000)%Q |}
      = {| usd := (sum / 100)%Q; eth := (sum / (ethPrice * 100))%Q |}.
Proof.
  apply (X6_total_reads_last_week_timestamp sample_ethPrices (λ _, sample_values)
           range_7d None
           {| total := {| usd := ((20 + 0 + 0) / 100)%Q;
                          eth := ((20 + 0 + 0) / 220000)%Q |};
              chart := [(100, 0%Q, 500%Q, 50%Q, 200000%Q);
                        (200, 700%Q, 300%Q, 0%Q, 210000%Q);
                        (300, 20%Q, 0%Q, 0%Q, 220000%Q)] |}).
  by vm_compute.
Defined.

(** *** The mock *)

(** X7: the totals hard-coded in [getMockTvlChartData] agree with its
    chart: whenever the mock chart is not empty, the latest-total step
    applied to it yields usd 60 and eth 5, the mock's own [total], up to
    equality of rationals. *)
Theorem X7_mock_total_matches_chart getRangeConfig now range init p :
  chart (getMockTvlChartData getRangeConfig now range) = init ++ [p] →
  ∃ latest,
    computeTotal (chart (getMockTvlChartData getRangeConfig now range)) = Ok latest
    ∧ (usd latest == usd (total (getMockTvlChartData getRangeConfig now range)))%Q
    ∧ (eth latest == eth (total (getMockTvlChartData getRangeConfig now range)))%Q.
Proof.
  intros Hchart. rewrite Hchart, computeTotal_snoc. eexists. split; [done|].
  assert (p ∈ chart (getMockTvlChartData getRangeConfig now range)) as Hp.
  { rewrite Hchart. apply elem_of_app. right. left. }
  unfold getMockTvlChartData in *.
  destruct (getRangeConfig range) as [days resolution]. simpl in *.
  apply list_elem_of_fmap in Hp as (t & -> & _).
  split; reflexivity.
Qed.

Lemma X7_witness :
  ∃ latest,
    computeTotal
      (chart (getMockTvlChartData
                (λ _, {| days := Some 1; resolution := daily |}) 1700001234 range_7d))
    = Ok latest
    ∧ (usd latest == 60)%Q ∧ (eth latest == 5)%Q.
Proof.
  apply (X7_mock_total_matches_chart
           (λ _, {| days := Some 1; resolution := daily |}) 1700001234 range_7d
           [(1699833600, 3000%Q, 2000%Q, 1000%Q, 1200%Q)]
           (1699920000, 3000%Q, 2000%Q, 1000%Q, 1200%Q)).
  by vm_compute.
Defined.
